(** * gns3server.handlers.jsonrpc_websocket

    A shallow embedding of [JSONRPCWebSocket], the Tornado handler that
    routes JSON-RPC requests received over Websockets to ZeroMQ modules
    (src/gns3server/handlers/jsonrpc_websocket.py), and the properties of
    its routing, reply and reset behaviour.

    Python values are modelled after decoding: a decoded JSON document is a
    [json] tree, the class attributes [clients] and [destinations] are a
    finite set and a finite map, and every call that leaves the handler
    (a Websocket write, a ZeroMQ send, a log record, a built-in call) is an
    [event] of the trace. *)

From Stdlib Require Import ZArith String Ascii List SpecFloat.
From stdpp Require Import gmap strings list fin_maps.

Set Warnings "-register-all".

Local Open Scope string_scope.
Local Open Scope Z_scope.

(** ** Decoded JSON values *)

(** The Python objects [json.loads] builds: [None], [bool], [int], [float]
    (an IEEE 754 binary64 datum), [str], [list] and [dict] with [str] keys
    (kept as an association list, first binding wins). *)
Inductive json : Type :=
| JNull
| JBool (b : bool)
| JInt (z : Z)
| JFloat (f : spec_float)
| JStr (s : string)
| JArr (items : list json)
| JObj (fields : list (string * json)).

(** Exceptions the handler can meet. [UnicodeDecodeError] is a subclass of
    [ValueError] in Python. *)
Inductive exn : Type :=
| KeyError
| IndexError
| TypeError
| ValueError
| UnicodeDecodeError
| AttributeError
| AssertionError.

Definition is_ValueError (e : exn) : bool :=
  match e with
  | ValueError | UnicodeDecodeError => true
  | _ => false
  end.

Module Py.

(** Exact value of a float as [m * 2 ^ e], when it is finite. *)
Definition float_value (f : spec_float) : option (Z * Z) :=
  match f with
  | S754_zero _ => Some (0, 0)
  | S754_finite s m e => Some (if s then Z.neg m else Z.pos m, e)
  | S754_infinity _ | S754_nan => None
  end.

(** [m1 * 2 ^ e1 = m2 * 2 ^ e2], decided on integers. *)
Definition scaled_eqb (m1 e1 m2 e2 : Z) : bool :=
  let e := Z.min e1 e2 in
  (m1 * 2 ^ (e1 - e) =? m2 * 2 ^ (e2 - e)).

(** [x == y] on two floats: a NaN equals nothing, the two zeros are
    equal, infinities are equal when their signs agree. *)
Definition float_eq (x y : spec_float) : bool :=
  match x, y with
  | S754_nan, _ | _, S754_nan => false
  | S754_infinity s1, S754_infinity s2 => Bool.eqb s1 s2
  | S754_infinity _, _ | _, S754_infinity _ => false
  | _, _ =>
      match float_value x, float_value y with
      | Some (m1, e1), Some (m2, e2) => scaled_eqb m1 e1 m2 e2
      | _, _ => false
      end
  end.

(** [z == y] for an [int] and a [float]: Python compares the exact
    values. *)
Definition int_eq_float (z : Z) (y : spec_float) : bool :=
  match float_value y with
  | Some (m, e) => scaled_eqb z 0 m e
  | None => false
  end.

(** [v == y] where [y] is a float: only numbers can be equal to it, and
    [bool] is a subclass of [int]. *)
Definition eq_float (v : json) (y : spec_float) : bool :=
  match v with
  | JInt z => int_eq_float z y
  | JBool b => int_eq_float (Z.b2z b) y
  | JFloat x => float_eq x y
  | JNull | JStr _ | JArr _ | JObj _ => false
  end.

(** [s == v] where [s] is a [str]. *)
Definition eq_str (s : string) (v : json) : bool :=
  match v with
  | JStr s' => String.eqb s s'
  | _ => false
  end.

(** Truth value of an object, as [if v:] tests it. *)
Definition truthy (v : json) : bool :=
  match v with
  | JNull => false
  | JBool b => b
  | JInt z => negb (z =? 0)
  | JFloat f => negb (float_eq f (S754_zero false))
  | JStr s => negb (String.eqb s EmptyString)
  | JArr items => match items with [] => false | _ => true end
  | JObj fields => match fields with [] => false | _ => true end
  end.

(** Lookup of a key in the association list of a [dict]. *)
Fixpoint assoc (k : string) (fields : list (string * json)) : option json :=
  match fields with
  | [] => None
  | (k', v) :: rest => if String.eqb k k' then Some v else assoc k rest
  end.

(** [v[k]] for a [str] key [k]. *)
Definition getitem_str (v : json) (k : string) : exn + json :=
  match v with
  | JObj fields =>
      match assoc k fields with
      | Some x => inr x
      | None => inl KeyError
      end
  | JNull | JBool _ | JInt _ | JFloat _ | JStr _ | JArr _ => inl TypeError
  end.

(** [v.get(k)]: a method of [dict] only; the default is [None]. *)
Definition get (v : json) (k : string) : exn + json :=
  match v with
  | JObj fields => inr (default JNull (assoc k fields))
  | JNull | JBool _ | JInt _ | JFloat _ | JStr _ | JArr _ => inl AttributeError
  end.

(** [v[i]] for a non-negative [int] index [i]. *)
Definition getitem_nat (v : json) (i : nat) : exn + json :=
  match v with
  | JArr items =>
      match items !! i with
      | Some x => inr x
      | None => inl IndexError
      end
  | JStr s =>
      match String.get i s with
      | Some c => inr (JStr (String c EmptyString))
      | None => inl IndexError
      end
  | JObj _ => inl KeyError
  | JNull | JBool _ | JInt _ | JFloat _ => inl TypeError
  end.

(** [v.startswith(p)]: a method of [str] only. *)
Definition startswith (v : json) (p : string) : exn + bool :=
  match v with
  | JStr s => inr (String.prefix p s)
  | JNull | JBool _ | JInt _ | JFloat _ | JArr _ | JObj _ => inl AttributeError
  end.

(** [s.endswith(p)] *)
Fixpoint endswith (s p : string) : bool :=
  if String.eqb s p then true
  else match s with
       | EmptyString => false
       | String _ s' => endswith s' p
       end.

End Py.

(** ** The objects of the handler *)

Definition zmq_socket := N.
Definition callable := N.

(** An instance of [JSONRPCWebSocket]: its identity, and the two attributes
    [__init__] sets. *)
Record JSONRPCWebSocket : Type := {
  self_id : N;
  _session_id : string;
  zmq_router : zmq_socket
}.

Definition session_id (self : JSONRPCWebSocket) : string := _session_id self.

#[global] Instance JSONRPCWebSocket_eq_dec : EqDecision JSONRPCWebSocket.
Proof. solve_decision. Defined.

#[global] Instance JSONRPCWebSocket_countable : Countable JSONRPCWebSocket.
Proof.
  refine (inj_countable'
            (fun c => (self_id c, _session_id c, zmq_router c))
            (fun t => {| self_id := t.1.1; _session_id := t.1.2; zmq_router := t.2 |}) _).
  intros []; reflexivity.
Defined.

(** A value of the [destinations] dictionary: the name of a module (a
    [str]), or, for a built-in destination, a function of the server. *)
Inductive value : Type :=
| Str (s : string)
| Function (f : callable).

(** The class attributes shared by every handler. *)
Record cls : Type := {
  clients : gset JSONRPCWebSocket;
  destinations : gmap string value
}.

Definition set_clients (c : gset JSONRPCWebSocket) (σ : cls) : cls :=
  {| clients := c; destinations := destinations σ |}.
Definition set_destinations (d : gmap string value) (σ : cls) : cls :=
  {| clients := clients σ; destinations := d |}.

(** ** Effects *)

Inductive level : Type := DEBUG | INFO | CRITICAL.

(** One part of a ZeroMQ message. *)
Inductive frame : Type :=
| FString (u : string)
| FJson (obj : json).

Inductive event : Type :=
| Log (lvl : level) (template : string)
| WriteMessage (client : JSONRPCWebSocket) (message : json)
| Send (socket : zmq_socket) (part : frame) (sndmore : bool)
| Call (f : callable).

Record outcome (A : Type) : Type := Outcome {
  trace : list event;
  final : cls;
  result : exn + A
}.
Arguments Outcome {A} _ _ _.
Arguments trace {A} _.
Arguments final {A} _.
Arguments result {A} _.

(** A computation reads and updates the class attributes, appends to the
    trace, and returns or raises. *)
Definition M (A : Type) : Type := cls -> outcome A.

#[global] Instance M_ret : MRet M := fun A a σ => Outcome [] σ (inr a).

#[global] Instance M_bind : MBind M := fun A B k m σ =>
  match m σ with
  | Outcome t σ' (inl e) => Outcome t σ' (inl e)
  | Outcome t σ' (inr a) =>
      match k a σ' with
      | Outcome t' σ'' x => Outcome (t ++ t')%list σ'' x
      end
  end.

Definition raise {A} (e : exn) : M A := fun σ => Outcome [] σ (inl e).
Definition emit (ev : event) : M unit := fun σ => Outcome [ev] σ (inr tt).
Definition get_cls : M cls := fun σ => Outcome [] σ (inr σ).
Definition put_cls (σ' : cls) : M unit := fun _ => Outcome [] σ' (inr tt).
Definition lift {A} (x : exn + A) : M A := fun σ => Outcome [] σ x.

(** [try: body except <caught>: handler] *)
Definition try_except {A} (body : M A) (caught : exn -> bool) (handler : M A) : M A :=
  fun σ =>
    match body σ with
    | Outcome t σ' (inl e) =>
        if caught e then
          match handler σ' with
          | Outcome t' σ'' x => Outcome (t ++ t')%list σ'' x
          end
        else Outcome t σ' (inl e)
    | Outcome t σ' (inr a) => Outcome t σ' (inr a)
    end.

(** [for x in xs: body x] *)
Fixpoint for_ {A} (xs : list A) (body : A -> M unit) : M unit :=
  match xs with
  | [] => mret tt
  | x :: rest => body x ;; for_ rest body
  end.

(** *** What a trace shows *)

Definition ws_writes (t : list event) : list (JSONRPCWebSocket * json) :=
  omap (fun ev => match ev with WriteMessage c m => Some (c, m) | _ => None end) t.

Definition sends (t : list event) : list (zmq_socket * frame * bool) :=
  omap (fun ev => match ev with Send s p more => Some (s, p, more) | _ => None end) t.

Definition logged (t : list event) : list level :=
  omap (fun ev => match ev with Log lvl _ => Some lvl | _ => None end) t.

Definition calls (t : list event) : list callable :=
  omap (fun ev => match ev with Call f => Some f | _ => None end) t.

(** The multipart messages a socket has sent: the parts sent with
    [SNDMORE] are held until a part without it completes the message. *)
Fixpoint multipart (socket : zmq_socket) (pending : list frame)
    (ss : list (zmq_socket * frame * bool)) : list (list frame) :=
  match ss with
  | [] => []
  | (s, part, more) :: rest =>
      if N.eqb s socket then
        if more then multipart socket (pending ++ [part])%list rest
        else (pending ++ [part])%list :: multipart socket [] rest
      else multipart socket pending rest
  end.

Definition bus_messages (socket : zmq_socket) (t : list event) : list (list frame) :=
  multipart socket [] (sends t).

(** ** Membership and lookup in [destinations] with a decoded key *)

(** [k in d]: a [list] or a [dict] cannot be hashed; a key that is not a
    [str] is equal to no key of [d]. *)
Definition contains (d : gmap string value) (k : json) : exn + bool :=
  match k with
  | JStr s => inr (bool_decide (is_Some (d !! s)))
  | JArr _ | JObj _ => inl TypeError
  | JNull | JBool _ | JInt _ | JFloat _ => inr false
  end.

(** [d[k]] *)
Definition lookup_key (d : gmap string value) (k : json) : exn + value :=
  match k with
  | JStr s =>
      match d !! s with
      | Some v => inr v
      | None => inl KeyError
      end
  | JArr _ | JObj _ => inl TypeError
  | JNull | JBool _ | JInt _ | JFloat _ => inl KeyError
  end.

(** [message[i]] on the list of parts of a ZeroMQ message. *)
Definition part (message : list string) (i : nat) : exn + string :=
  match message !! i with
  | Some b => inr b
  | None => inl IndexError
  end.

(** ** Calls that leave the handler *)

Definition log (lvl : level) (template : string) : M unit := emit (Log lvl template).

(** [client.write_message(message)] *)
Definition write_message (client : JSONRPCWebSocket) (message : json) : M unit :=
  emit (WriteMessage client message).

(** [socket.send_string(u, flags)]: pyzmq refuses what is not a [str]. *)
Definition send_string (socket : zmq_socket) (u : value) (sndmore : bool) : M unit :=
  match u with
  | Str s => emit (Send socket (FString s) sndmore)
  | Function _ => raise TypeError
  end.

(** [socket.send_json(obj)] *)
Definition send_json (socket : zmq_socket) (obj : json) : M unit :=
  emit (Send socket (FJson obj) false).

(** [v()] *)
Definition call (v : value) : M unit :=
  match v with
  | Function f => emit (Call f)
  | Str _ => raise TypeError
  end.

(** ** The handler *)

(** What the handler imports from Tornado, the Python runtime and
    gns3server/jsonrpc.py, which are not part of the handler. *)
Class Runtime : Type := {
  (** [tornado.escape.json_decode]: the decoded document, or [None] when
      it raises [ValueError]. *)
  json_decode : string -> option json;
  (** [bytes.decode("utf-8")]: [None] when it raises
      [UnicodeDecodeError]. *)
  utf8_decode : string -> option string;
  (** The text an error object carries for a code. *)
  error_message : Z -> string
}.

Section Handler.

Context {R : Runtime}.

Definition decode (message : string) : exn + json :=
  match json_decode message with
  | Some j => inr j
  | None => inl ValueError
  end.

Definition decode_utf8 (b : string) : exn + string :=
  match utf8_decode b with
  | Some s => inr s
  | None => inl UnicodeDecodeError
  end.

(** Modelled from the spec: gns3server/jsonrpc.py, which defines the
    error and notification objects, is not among the sources. An error
    object has [jsonrpc: "2.0"], an [error] with [code] and [message],
    and the echoed request id or null (spec, 3 and 4.A). *)
Definition error_object (code : Z) (request_id : json) : json :=
  JObj [("jsonrpc", JStr "2.0");
        ("error", JObj [("code", JInt code); ("message", JStr (error_message code))]);
        ("id", request_id)].

(** Modelled from the spec: [JSONRPCParseError()()], code -32700 and a
    null id (spec, 4.A). *)
Definition JSONRPCParseError : json := error_object (-32700) JNull.

(** Modelled from the spec: [JSONRPCInvalidRequest()()], code -32600 and
    a null id (spec, 4.A). *)
Definition JSONRPCInvalidRequest : json := error_object (-32600) JNull.

(** Modelled from the spec: [JSONRPCMethodNotFound(request_id)()], code
    -32601 and the id of the request (spec, 4.A). *)
Definition JSONRPCMethodNotFound (request_id : json) : json :=
  error_object (-32601) request_id.

(** Modelled from the spec: [JSONRPCNotification(method)()] carries
    [jsonrpc: "2.0"] and [method], and omits [id] (spec, 4.A). *)
Definition JSONRPCNotification (method : string) : json :=
  JObj [("jsonrpc", JStr "2.0"); ("method", JStr method)].

(** The code of an error object. *)
Definition error_code (envelope : json) : option json :=
  match Py.getitem_str envelope "error" with
  | inr e => match Py.getitem_str e "code" with inr c => Some c | inl _ => None end
  | inl _ => None
  end.

(** The id of an error object. *)
Definition envelope_id (envelope : json) : option json :=
  match Py.getitem_str envelope "id" with inr i => Some i | inl _ => None end.

(** [version = 2.0]: the class attribute is the float 2.0. *)
Definition version : spec_float := S754_finite false 4503599627370496 (-51).

(** [dispatch_message(cls, stream, message)] *)
Definition dispatch_message (stream : zmq_socket) (message : list string) : M unit :=
  module_name ← lift (part message 0);
  module ← lift (decode_utf8 module_name);
  decoded ← try_except
    (payload ← lift (part message 1);
     json_message ← lift (decode payload);
     mret (Some json_message))
    is_ValueError
    (send_string stream (Str "Cannot decode message!") false ;;
     log CRITICAL "Couldn't decode message: {}" ;;
     mret None);
  match decoded with
  | None => mret tt
  | Some json_message =>
      session_id' ← lift (Py.getitem_nat json_message 0);
      jsonrpc_response ← lift (Py.getitem_nat json_message 1);
      log DEBUG "Received message from module {}: {}" ;;
      σ ← get_cls;
      for_ (elements (clients σ)) (fun client =>
        if Py.eq_str (session_id client) session_id'
        then write_message client jsonrpc_response
        else mret tt)
  end.

(** [register_destination(cls, destination, module)] *)
Definition register_destination (destination : string) (module : value) : M unit :=
  σ ← get_cls;
  (if bool_decide (is_Some (destinations σ !! destination))
   then raise AssertionError else mret tt) ;;
  log DEBUG "registering {} as a destination for the {} module" ;;
  put_cls (set_destinations (<[destination := module]> (destinations σ)) σ).

(** [open(self)] *)
Definition open (self : JSONRPCWebSocket) : M unit :=
  log INFO "Websocket client {} connected" ;;
  σ ← get_cls;
  put_cls (set_clients ({[self]} ∪ clients σ) σ).

(** [on_message(self, message)] *)
Definition on_message (self : JSONRPCWebSocket) (message : string) : M unit :=
  log DEBUG "Received Websocket message: {}" ;;
  parsed ← try_except
    (request ← lift (decode message);
     jsonrpc_version ← lift (Py.getitem_str request "jsonrpc");
     method ← lift (Py.getitem_str request "method");
     request_id ← lift (Py.get request "id");
     mret (Some (request, jsonrpc_version, method, request_id)))
    (fun _ => true)
    (write_message self JSONRPCParseError ;; mret None);
  match parsed with
  | None => mret tt
  | Some (request, jsonrpc_version, method, request_id) =>
      if negb (Py.eq_float jsonrpc_version version) then
        write_message self JSONRPCInvalidRequest
      else
        σ ← get_cls;
        registered ← lift (contains (destinations σ) method);
        if negb registered then
          if Py.truthy request_id
          then write_message self (JSONRPCMethodNotFound request_id)
          else mret tt
        else
          builtin ← lift (Py.startswith method "builtin");
          if (builtin : bool) then
            log INFO "calling built-in method {}" ;;
            f ← lift (lookup_key (destinations σ) method);
            call f
          else
            module ← lift (lookup_key (destinations σ) method);
            let zmq_request := JArr [JStr (session_id self); request] in
            send_string (zmq_router self) module true ;;
            send_json (zmq_router self) zmq_request
  end.

(** [on_close(self)] *)
Definition on_close (self : JSONRPCWebSocket) : M unit :=
  log INFO "Websocket client {} disconnected" ;;
  σ ← get_cls;
  (if bool_decide (self ∈ clients σ)
   then put_cls (set_clients (clients σ ∖ {[self]}) σ)
   else raise KeyError) ;;
  σ ← get_cls;
  if bool_decide (clients σ = ∅) then
    for_ (map_to_list (destinations σ)) (fun '(destination, module) =>
      if Py.endswith destination "reset" then
        send_string (zmq_router self) module true ;;
        let notification := JSONRPCNotification destination in
        send_json (zmq_router self) (JArr [JStr (session_id self); notification])
      else mret tt)
  else mret tt.

End Handler.

(** ** The frames of the end-to-end scenarios

    The texts the scenarios of the specification put on the wire, with the
    documents [json.loads] makes of them, to run the handler on. *)
Module Scenario.

Definition dq : string := String (ascii_of_nat 34) EmptyString.
Definition q (s : string) : string := dq ++ s ++ dq.

Definition S : string := "00000000-0000-0000-0000-000000000001".

(** [{"jsonrpc":<version>,"method":"<method>"<rest>}] *)
Definition request_text (version method rest : string) : string :=
  "{" ++ q "jsonrpc" ++ ":" ++ version ++ "," ++ q "method" ++ ":" ++ q method
      ++ rest ++ "}".

Definition request_doc (version : json) (method : string)
    (rest : list (string * json)) : json :=
  JObj (("jsonrpc", version) :: ("method", JStr method) :: rest).

Definition params_text : string :=
  "," ++ q "params" ++ ":{" ++ q "name" ++ ":" ++ q "sw1" ++ "}".
Definition params_doc : string * json := ("params", JObj [("name", JStr "sw1")]).

Definition two : json := JFloat (S754_finite false 4503599627370496 (-51)).

(** [{"jsonrpc":"2.0","method":"frsw.create","id":7,"params":{"name":"sw1"}}] *)
Definition create_text : string :=
  request_text (q "2.0") "frsw.create" ("," ++ q "id" ++ ":7" ++ params_text).
Definition create_doc : json :=
  request_doc (JStr "2.0") "frsw.create" [("id", JInt 7); params_doc].

(** [{"jsonrpc":2.0,"method":"frsw.create","id":7,"params":{"name":"sw1"}}] *)
Definition create_float_text : string :=
  request_text "2.0" "frsw.create" ("," ++ q "id" ++ ":7" ++ params_text).
Definition create_float_doc : json :=
  request_doc two "frsw.create" [("id", JInt 7); params_doc].

(** [{"jsonrpc":"1.0","method":"frsw.create","id":1}] *)
Definition old_version_text : string :=
  request_text (q "1.0") "frsw.create" ("," ++ q "id" ++ ":1").
Definition old_version_doc : json :=
  request_doc (JStr "1.0") "frsw.create" [("id", JInt 1)].

(** [{"jsonrpc":2.0,"method":"nope","id":3}] *)
Definition nope_text : string := request_text "2.0" "nope" ("," ++ q "id" ++ ":3").
Definition nope_doc : json := request_doc two "nope" [("id", JInt 3)].

(** [{"jsonrpc":2.0,"method":"nope"}] *)
Definition nope_notification_text : string := request_text "2.0" "nope" EmptyString.
Definition nope_notification_doc : json := request_doc two "nope" [].

(** [{"jsonrpc":2.0,"method":"builtin"}] *)
Definition builtin_text : string := request_text "2.0" "builtin" EmptyString.
Definition builtin_doc : json := request_doc two "builtin" [].

(** [{"jsonrpc":"2.0","id":7,"result":{"id":"a","name":"sw1"}}] *)
Definition response_text : string :=
  "{" ++ q "jsonrpc" ++ ":" ++ q "2.0" ++ "," ++ q "id" ++ ":7," ++ q "result" ++ ":{"
      ++ q "id" ++ ":" ++ q "a" ++ "," ++ q "name" ++ ":" ++ q "sw1" ++ "}}".
Definition response_doc : json :=
  JObj [("jsonrpc", JStr "2.0"); ("id", JInt 7);
        ("result", JObj [("id", JStr "a"); ("name", JStr "sw1")])].

(** [["00000000-0000-0000-0000-000000000001", <response>]] *)
Definition reply_text : string := "[" ++ q S ++ ", " ++ response_text ++ "]".
Definition reply_doc : json := JArr [JStr S; response_doc].

(** The documents above, and the empty array; any other text, such as
    [not json], is refused. *)
Definition documents : list (string * json) :=
  [(create_text, create_doc); (create_float_text, create_float_doc);
   (old_version_text, old_version_doc); (nope_text, nope_doc);
   (nope_notification_text, nope_notification_doc);
   (builtin_text, builtin_doc); (reply_text, reply_doc); ("[]", JArr [])].

Definition is_ascii (s : string) : bool :=
  forallb (fun c => (N_of_ascii c <? 128)%N) (list_ascii_of_string s).

Definition messages (code : Z) : string :=
  if code =? -32700 then "Parse error"
  else if code =? -32600 then "Invalid Request"
  else if code =? -32601 then "Method not found"
  else "Server error".

Definition runtime : Runtime := {|
  json_decode text := Py.assoc text documents;
  utf8_decode b := if is_ascii b then Some b else None;
  error_message := messages
|}.

Definition router : zmq_socket := 0%N.

Definition client : JSONRPCWebSocket :=
  {| self_id := 1; _session_id := S; zmq_router := router |}.

Definition other_client : JSONRPCWebSocket :=
  {| self_id := 2; _session_id := "00000000-0000-0000-0000-000000000002";
     zmq_router := router |}.

Definition version_function : callable := 0%N.

(** [{ "frsw.create": "dynamips", "builtin": <function> }] *)
Definition registry : gmap string value :=
  <["frsw.create" := Str "dynamips"]> (<["builtin" := Function version_function]> ∅).

(** [{ "mod.reset": "m1", "mod.other": "m1", "n.reset": "m2" }] *)
Definition reset_registry : gmap string value :=
  <["mod.reset" := Str "m1"]> (<["mod.other" := Str "m1"]> (<["n.reset" := Str "m2"]> ∅)).

Definition state (c : list JSONRPCWebSocket) (d : gmap string value) : cls :=
  {| clients := list_to_set c; destinations := d |}.

End Scenario.

(** The field [k] of a decoded frame, when the frame is an object that
    has it. *)
Definition field (request : json) (k : string) : option json :=
  match request with
  | JObj fields => Py.assoc k fields
  | JNull | JBool _ | JInt _ | JFloat _ | JStr _ | JArr _ => None
  end.

(** The bindings a reset is sent for: those of [items] whose destination
    ends with [reset], with the name of their module. *)
Definition reset_targets (items : list (string * value)) : list (string * string) :=
  omap (fun '(destination, module) =>
          if Py.endswith destination "reset" then
            match module with
            | Str name => Some (destination, name)
            | Function _ => None
            end
          else None) items.

(** The message a reset of [target] is: the name of the module, then the
    array of the session id of [self] and the notification. *)
Definition reset_message (self : JSONRPCWebSocket) (target : string * string) : list frame :=
  [FString target.2;
   FJson (JArr [JStr (session_id self); JSONRPCNotification target.1])].

(** ** Frames of edge cases

    Texts that decode, but not to what the handler expects, with the
    documents [json.loads] makes of them. *)
Module Edge.

Import Scenario.

(** [{"jsonrpc":2.0,"method":[],"id":1}] *)
Definition list_method_text : string :=
  "{" ++ q "jsonrpc" ++ ":2.0," ++ q "method" ++ ":[]," ++ q "id" ++ ":1}".
Definition list_method_doc : json :=
  JObj [("jsonrpc", two); ("method", JArr []); ("id", JInt 1)].

(** [["00000000-0000-0000-0000-000000000001", <response>, 1]] *)
Definition long_reply_text : string := "[" ++ q S ++ ", " ++ response_text ++ ", 1]".
Definition long_reply_doc : json := JArr [JStr S; response_doc; JInt 1].

Definition documents : list (string * json) :=
  [(list_method_text, list_method_doc); (long_reply_text, long_reply_doc);
   (reply_text, reply_doc); (create_float_text, create_float_doc);
   (builtin_text, builtin_doc); ("[]", JArr []); ("7", JInt 7)].

Definition runtime : Runtime := {|
  json_decode text := Py.assoc text documents;
  utf8_decode b := if is_ascii b then Some b else None;
  error_message := messages
|}.

(** A part that is not UTF-8: the single byte 0xff. *)
Definition not_utf8 : string := String (ascii_of_nat 255) EmptyString.

(** [{ "frsw.create": <function>, "builtin": "dynamips" }]: the two kinds
    of value, each under a name of the other kind. *)
Definition swapped_registry : gmap string value :=
  <["frsw.create" := Function version_function]> (<["builtin" := Str "dynamips"]> ∅).

(** [{ "mod.reset": <function> }] *)
Definition function_reset_registry : gmap string value :=
  <["mod.reset" := Function version_function]> ∅.

(** A second client with the session id of [client]. *)
Definition twin_client : JSONRPCWebSocket :=
  {| self_id := 3; _session_id := S; zmq_router := router |}.

End Edge.

(** ** Properties *)

#[global] Arguments contains : simpl never.
#[global] Arguments lookup_key : simpl never.
#[global] Arguments Py.startswith : simpl never.
#[global] Arguments Py.truthy : simpl never.
#[global] Arguments Py.eq_float : simpl never.

Section Properties.

Context {R : Runtime}.


Lemma getitem_str_field request k :
  Py.getitem_str request k =
    match field request k with Some v => inr v | None =>
      inl (match request with JObj _ => KeyError | _ => TypeError end) end.
Proof. destruct request; reflexivity. Qed.

Lemma get_field request k v :
  field request k = Some v ->
  forall k', Py.get request k' = inr (default JNull (field request k')).
Proof. destruct request; simpl; intros H k'; try discriminate. reflexivity. Qed.

Lemma contains_str d m : contains d (JStr m) = inr false <-> d !! m = None.
Proof.
  unfold contains. split.
  - intros H. injection H as H. apply bool_decide_eq_false in H.
    by apply eq_None_not_Some.
  - intros ->. reflexivity.
Qed.

Ltac run :=
  unfold mbind, M_bind, mret, M_ret, lift, log, write_message, send_json,
    emit, raise, get_cls, put_cls, try_except;
  simpl.

(** Runs [on_message] through its [try] block on a frame that has both
    required fields. *)
Ltac on_message_fields Hd Hv Hm :=
  unfold on_message, decode; run; rewrite Hd; simpl;
  rewrite !getitem_str_field, Hv, Hm; simpl;
  rewrite (get_field _ _ _ Hv); simpl.

Lemma int_eq_version z : Py.int_eq_float z version = true <-> z = 2.
Proof.
  unfold Py.int_eq_float, Py.scaled_eqb, version. simpl Py.float_value. cbv iota beta zeta.
  change (0 `min` (-51)) with (-51). change (0 - -51) with 51. change (-51 - -51) with 0.
  rewrite Z.eqb_eq. change (2 ^ 51) with 2251799813685248. change (2 ^ 0) with 1. lia.
Qed.

Lemma eq_version v :
  Py.eq_float v version = true <->
  v = JInt 2 \/ exists f, v = JFloat f /\ Py.float_eq f version = true.
Proof.
  destruct v.
  - split; [discriminate | intros [? | (f & ? & _)]; discriminate].
  - split.
    + unfold Py.eq_float. intros Hb. apply int_eq_version in Hb. destruct b; discriminate.
    + intros [? | (f & ? & _)]; discriminate.
  - unfold Py.eq_float. rewrite int_eq_version. split.
    + intros ->. by left.
    + intros [Hz | (f & ? & _)]; [by injection Hz | discriminate].
  - split.
    + intros Hf. right. by exists f.
    + intros [? | (f' & Hf & Hv)]; [discriminate | by injection Hf as ->].
  - split; [discriminate | intros [? | (f & ? & _)]; discriminate].
  - split; [discriminate | intros [? | (f & ? & _)]; discriminate].
  - split; [discriminate | intros [? | (f & ? & _)]; discriminate].
Qed.

Lemma method_not_found_is_not_invalid_request request_id :
  JSONRPCMethodNotFound request_id <> JSONRPCInvalidRequest.
Proof. unfold JSONRPCMethodNotFound, JSONRPCInvalidRequest, error_object. congruence. Qed.

(** C7: a frame that is not decodable JSON, or that decodes without a
    [jsonrpc] field or without a [method] field, gets exactly one
    ParseError reply, whose code is -32700 and whose id is null, and
    nothing is sent on the bus. *)
Theorem on_message_parse_error self message σ :
  json_decode message = None \/
  (exists request, json_decode message = Some request /\
     (field request "jsonrpc" = None \/ field request "method" = None)) ->
  let r := on_message self message σ in
  ws_writes (trace r) = [(self, JSONRPCParseError)] /\
  error_code JSONRPCParseError = Some (JInt (-32700)) /\
  envelope_id JSONRPCParseError = Some JNull /\
  sends (trace r) = [] /\
  calls (trace r) = [] /\
  result r = inr tt /\
  final r = σ.
Proof.
  intros Hbad. unfold on_message, decode. run.
  destruct Hbad as [Hd | (request & Hd & Hf)]; rewrite Hd; simpl.
  - done.
  - rewrite !getitem_str_field.
    destruct (field request "jsonrpc") as [v|] eqn:Hv; simpl; [|done].
    destruct Hf as [Hf | Hf]; [discriminate|]. rewrite Hf. simpl. done.
Qed.

(** C1, as the code has it: the class attribute [version] is the float
    2.0, so a frame with both fields is accepted exactly when its
    [jsonrpc] field is a number equal to 2 (the integer 2 or a float
    equal to 2.0); an accepted request is never answered with
    InvalidRequest, and any other [jsonrpc] value gets exactly one
    InvalidRequest reply (code -32600) and no bus message. *)
Theorem on_message_version_check self message σ request jsonrpc_version method :
  json_decode message = Some request ->
  field request "jsonrpc" = Some jsonrpc_version ->
  field request "method" = Some method ->
  let r := on_message self message σ in
  let accepted := Py.eq_float jsonrpc_version version in
  (accepted = true <->
     jsonrpc_version = JInt 2 \/
     exists f, jsonrpc_version = JFloat f /\ Py.float_eq f version = true) /\
  (accepted = true ->
     Forall (fun w => w.2 <> JSONRPCInvalidRequest) (ws_writes (trace r))) /\
  (accepted = false ->
     ws_writes (trace r) = [(self, JSONRPCInvalidRequest)] /\
     error_code JSONRPCInvalidRequest = Some (JInt (-32600)) /\
     sends (trace r) = [] /\
     calls (trace r) = [] /\
     result r = inr tt).
Proof.
  intros Hd Hv Hm r accepted. subst r accepted.
  split; [apply eq_version|]. split.
  - intros Hok. on_message_fields Hd Hv Hm. rewrite Hok. simpl.
    destruct (contains (destinations σ) method) as [e|[|]]; simpl.
    + constructor.
    + destruct (Py.startswith method "builtin") as [e|[|]]; simpl.
      * constructor.
      * destruct (lookup_key (destinations σ) method) as [e|[m|f]]; simpl; constructor.
      * destruct (lookup_key (destinations σ) method) as [e|[m|f]]; simpl; constructor.
    + destruct (Py.truthy _); simpl; repeat constructor.
      apply method_not_found_is_not_invalid_request.
  - intros Hno. on_message_fields Hd Hv Hm. rewrite Hno. simpl. done.
Qed.

(** C3: for a decoded request with an accepted version whose method is
    not a key of [destinations], nothing is sent on the bus; when the id
    is truthy exactly one MethodNotFound reply (code -32601) echoing the
    id is written, and when the id is absent, 0, the empty string or
    null (or any other falsy value) nothing is written. *)
Theorem on_message_method_not_found self message σ request jsonrpc_version method :
  json_decode message = Some request ->
  field request "jsonrpc" = Some jsonrpc_version ->
  Py.eq_float jsonrpc_version version = true ->
  field request "method" = Some method ->
  contains (destinations σ) method = inr false ->
  let r := on_message self message σ in
  let request_id := default JNull (field request "id") in
  sends (trace r) = [] /\
  calls (trace r) = [] /\
  result r = inr tt /\
  (Py.truthy request_id = true ->
     ws_writes (trace r) = [(self, JSONRPCMethodNotFound request_id)] /\
     error_code (JSONRPCMethodNotFound request_id) = Some (JInt (-32601)) /\
     envelope_id (JSONRPCMethodNotFound request_id) = Some request_id) /\
  (Py.truthy request_id = false -> ws_writes (trace r) = []) /\
  (field request "id" = None \/ field request "id" = Some (JInt 0) \/
   field request "id" = Some (JStr EmptyString) \/ field request "id" = Some JNull ->
     ws_writes (trace r) = []).
Proof.
  intros Hd Hv Hok Hm Hnot r request_id. subst r request_id.
  on_message_fields Hd Hv Hm. rewrite Hok. simpl. rewrite Hnot. simpl.
  destruct (Py.truthy (default JNull (field request "id"))) eqn:Hid; simpl.
  - repeat split; try discriminate.
    intros [Hf | [Hf | [Hf | Hf]]]; rewrite Hf in Hid; discriminate.
  - repeat split; discriminate.
Qed.

(** C2: a decoded request with an accepted version whose method is bound
    to a module, and does not start with [builtin], puts exactly one
    message of two parts on the bus, the name of the module and the
    array of the session id and the whole request, and writes nothing
    to the Websocket. *)
Theorem on_message_routes_to_module self message σ request jsonrpc_version method module :
  json_decode message = Some request ->
  field request "jsonrpc" = Some jsonrpc_version ->
  Py.eq_float jsonrpc_version version = true ->
  field request "method" = Some (JStr method) ->
  destinations σ !! method = Some (Str module) ->
  String.prefix "builtin" method = false ->
  let r := on_message self message σ in
  bus_messages (zmq_router self) (trace r) =
    [[FString module; FJson (JArr [JStr (session_id self); request])]] /\
  length (sends (trace r)) = 2%nat /\
  ws_writes (trace r) = [] /\
  calls (trace r) = [] /\
  result r = inr tt /\
  final r = σ.
Proof.
  intros Hd Hv Hok Hm Hbound Hprefix r. subst r.
  on_message_fields Hd Hv Hm. rewrite Hok. simpl.
  rewrite bool_decide_eq_true_2 by eauto. simpl.
  rewrite Hprefix. simpl. unfold lookup_key. rewrite Hbound. simpl.
  unfold bus_messages. simpl. rewrite N.eqb_refl. done.
Qed.

(** C8: a decoded request with an accepted version whose method starts
    with [builtin] (the method [builtin] itself included) and is bound
    to a function of the server calls that function, without arguments,
    sends nothing on the bus and writes nothing to the Websocket. *)
Theorem on_message_builtin self message σ request jsonrpc_version method f :
  json_decode message = Some request ->
  field request "jsonrpc" = Some jsonrpc_version ->
  Py.eq_float jsonrpc_version version = true ->
  field request "method" = Some (JStr method) ->
  destinations σ !! method = Some (Function f) ->
  String.prefix "builtin" method = true ->
  let r := on_message self message σ in
  calls (trace r) = [f] /\
  sends (trace r) = [] /\
  ws_writes (trace r) = [] /\
  result r = inr tt /\
  final r = σ.
Proof.
  intros Hd Hv Hok Hm Hbound Hprefix r. subst r.
  on_message_fields Hd Hv Hm. rewrite Hok. simpl.
  rewrite bool_decide_eq_true_2 by eauto. simpl.
  rewrite Hprefix. simpl. unfold lookup_key. rewrite Hbound. simpl. done.
Qed.

(** *** [dispatch_message] *)

Lemma eq_str_true s v : Py.eq_str s v = true <-> v = JStr s.
Proof.
  destruct v; simpl; try (split; [discriminate | intros ?; discriminate]).
  rewrite String.eqb_eq. split; [by intros -> | by intros [= ->]].
Qed.

(** The loop over [cls.clients] writes to each client whose session id
    matches, in the order of the iteration. *)
Lemma for_clients_writes (l : list JSONRPCWebSocket) session response σ :
  for_ l (fun client =>
    if Py.eq_str (session_id client) session
    then write_message client response
    else mret tt) σ =
  Outcome
    (map (fun client => WriteMessage client response)
       (List.filter (fun client => Py.eq_str (session_id client) session) l))
    σ (inr tt).
Proof.
  revert σ. induction l as [|c l IH]; intros σ; [reflexivity|].
  cbn [for_ List.filter]. unfold mbind, M_bind.
  destruct (Py.eq_str (session_id c) session);
    unfold write_message, emit, mret, M_ret; rewrite IH; reflexivity.
Qed.

Lemma ws_writes_map (l : list JSONRPCWebSocket) response :
  ws_writes (map (fun client => WriteMessage client response) l) =
  map (fun client => (client, response)) l.
Proof. induction l as [|c l IH]; [reflexivity|]. cbn. unfold ws_writes in IH. by rewrite IH. Qed.

Lemma filter_none {A} (p : A -> bool) (l : list A) :
  (forall x, x ∈ l -> p x = false) -> List.filter p l = [].
Proof.
  induction l as [|x l IH]; intros Hp; [reflexivity|]. cbn.
  rewrite (Hp x) by left. apply IH. intros y Hy. apply Hp. by right.
Qed.

Lemma filter_unique {A} (p : A -> bool) (l : list A) (c : A) :
  NoDup l -> c ∈ l -> p c = true ->
  (forall x, x ∈ l -> p x = true -> x = c) ->
  List.filter p l = [c].
Proof.
  induction l as [|x l IH]; intros Hnd Hin Hc Huniq.
  - by apply elem_of_nil in Hin.
  - apply NoDup_cons in Hnd as [Hx Hnd]. cbn.
    apply elem_of_cons in Hin as [<- | Hin].
    + rewrite Hc. f_equal. apply filter_none. intros y Hy.
      destruct (p y) eqn:Hy'; [|reflexivity].
      assert (y = c) as -> by (apply Huniq; [by right | done]). done.
    + destruct (p x) eqn:Hpx.
      * assert (x = c) as -> by (apply Huniq; [by left | done]). done.
      * apply IH; [done..|]. intros y Hy. apply Huniq. by right.
Qed.

Ltac dispatch_message_parts Hu :=
  unfold dispatch_message, decode, decode_utf8, part; run; rewrite Hu; simpl.

(** C5: for a bus message whose payload decodes to the array of a
    session id and a response, the response is written exactly once, to
    the client of [clients] that has this session id when exactly one
    has it, and nothing is written when no client has it. *)
Theorem dispatch_message_delivers stream module_name payload module session response σ :
  utf8_decode module_name = Some module ->
  json_decode payload = Some (JArr [session; response]) ->
  let r := dispatch_message stream [module_name; payload] σ in
  (forall client,
     client ∈ clients σ ->
     session = JStr (session_id client) ->
     (forall other, other ∈ clients σ ->
        session_id other = session_id client -> other = client) ->
     ws_writes (trace r) = [(client, response)]) /\
  ((forall client, client ∈ clients σ -> session <> JStr (session_id client)) ->
     ws_writes (trace r) = []) /\
  sends (trace r) = [] /\
  result r = inr tt /\
  final r = σ.
Proof.
  intros Hu Hd r. subst r.
  pose proof for_clients_writes as Hloop. revert Hloop.
  dispatch_message_parts Hu. rewrite Hd. simpl. intros Hloop.
  rewrite Hloop. clear Hloop. cbn [trace final result].
  change (ws_writes (Log ?lvl ?text :: ?t)) with (ws_writes t).
  change (sends (Log ?lvl ?text :: ?t)) with (sends t).
  rewrite ws_writes_map.
  split; [|split].
  - intros client Hin -> Huniq.
    rewrite (filter_unique _ _ client); [reflexivity | apply NoDup_elements | | |].
    + by apply elem_of_elements.
    + by apply eq_str_true.
    + intros other Ho Hs. apply elem_of_elements in Ho.
      apply eq_str_true in Hs. injection Hs as Hs. by apply Huniq.
  - intros Hnone. rewrite filter_none; [reflexivity|].
    intros client Hc. apply elem_of_elements in Hc.
    destruct (Py.eq_str (session_id client) session) eqn:Hs; [|reflexivity].
    apply eq_str_true in Hs. by apply Hnone in Hc.
  - split; [|done]. unfold sends.
    induction (List.filter _ _) as [|c l IH]; [reflexivity | exact IH].
Qed.

(** C6, as the code has it: only a payload that is not decodable JSON is
    guarded. For such a message [dispatch_message] logs one record at
    critical severity and returns, without raising and without writing
    to any Websocket client. *)
Theorem dispatch_message_undecodable stream module_name payload rest module σ :
  utf8_decode module_name = Some module ->
  json_decode payload = None ->
  let r := dispatch_message stream (module_name :: payload :: rest) σ in
  logged (trace r) = [CRITICAL] /\
  ws_writes (trace r) = [] /\
  result r = inr tt /\
  final r = σ.
Proof.
  intros Hu Hd r. subst r. dispatch_message_parts Hu. rewrite Hd. simpl. done.
Qed.

(** C10: when the payload of a bus message is not decodable JSON,
    [dispatch_message] sends the text [Cannot decode message!] on the
    stream, which is its only send, before it logs, and writes to no
    Websocket client. *)
Theorem dispatch_message_cannot_decode stream module_name payload rest module σ :
  utf8_decode module_name = Some module ->
  json_decode payload = None ->
  let r := dispatch_message stream (module_name :: payload :: rest) σ in
  trace r = [Send stream (FString "Cannot decode message!") false;
             Log CRITICAL "Couldn't decode message: {}"] /\
  sends (trace r) = [(stream, FString "Cannot decode message!", false)] /\
  bus_messages stream (trace r) = [[FString "Cannot decode message!"]] /\
  ws_writes (trace r) = [].
Proof.
  intros Hu Hd r. subst r. dispatch_message_parts Hu. rewrite Hd. simpl.
  unfold bus_messages. simpl. rewrite N.eqb_refl. done.
Qed.

(** *** [register_destination] *)

(** C9: registering a destination that is not bound succeeds, and a
    lookup then returns the module it was registered with; registering
    a destination that is bound raises [AssertionError] and leaves the
    dictionary as it was, in particular after a first registration. *)
Theorem register_destination_binds destination module module' σ :
  let r := register_destination destination module σ in
  (destinations σ !! destination = None ->
     result r = inr tt /\
     lookup_key (destinations (final r)) (JStr destination) = inr module /\
     (forall other, other <> destination ->
        destinations (final r) !! other = destinations σ !! other) /\
     let r' := register_destination destination module' (final r) in
     result r' = inl AssertionError /\
     final r' = final r) /\
  (forall bound, destinations σ !! destination = Some bound ->
     result r = inl AssertionError /\
     final r = σ /\
     lookup_key (destinations (final r)) (JStr destination) = inr bound).
Proof.
  intros r. subst r. unfold register_destination. run. split.
  - intros Hfree. rewrite Hfree.
    rewrite bool_decide_eq_false_2 by (intros [? ?]; discriminate). simpl.
    unfold lookup_key. rewrite lookup_insert_eq.
    rewrite bool_decide_eq_true_2 by eauto. simpl.
    repeat split. intros other Hne. by rewrite lookup_insert_ne.
  - intros bound Hbound. rewrite bool_decide_eq_true_2 by eauto. simpl.
    unfold lookup_key. rewrite Hbound. done.
Qed.

(** *** [on_close] *)

Lemma bind_returned {A B} (m : M A) (k : A -> M B) σ t σ' a :
  m σ = Outcome t σ' (inr a) ->
  (m ≫= k) σ = match k a σ' with Outcome t' σ'' x => Outcome (t ++ t')%list σ'' x end.
Proof. intros Hm. unfold mbind, M_bind. by rewrite Hm. Qed.

(** The loop over [destinations.items()]: when no destination ending
    with [reset] is bound to a function, it runs to its end, and sends
    the reset messages of the targets, in the order of the iteration. *)
Lemma for_reset_messages self (items : list (string * value)) σ :
  (forall d f, (d, Function f) ∈ items -> Py.endswith d "reset" = false) ->
  exists t,
    for_ items (fun '(destination, module) =>
      if Py.endswith destination "reset" then
        send_string (zmq_router self) module true ;;
        send_json (zmq_router self)
          (JArr [JStr (session_id self); JSONRPCNotification destination])
      else mret tt) σ = Outcome t σ (inr tt) /\
    multipart (zmq_router self) [] (sends t) =
      map (reset_message self) (reset_targets items) /\
    ws_writes t = [] /\
    calls t = [].
Proof.
  revert σ. induction items as [|[d v] items IH]; intros σ Hfun.
  - exists []. done.
  - destruct (IH σ) as (t & Hrun & Hbus & Hws & Hcalls).
    { intros d' f Hin. apply (Hfun d' f). by right. }
    unfold reset_targets. cbn [for_ omap list_omap].
    destruct (Py.endswith d "reset") eqn:Hreset.
    + destruct v as [name | f].
      * exists (Send (zmq_router self) (FString name) true ::
                Send (zmq_router self)
                  (FJson (JArr [JStr (session_id self); JSONRPCNotification d])) false :: t).
        rewrite (bind_returned _ _ σ
                   [Send (zmq_router self) (FString name) true;
                    Send (zmq_router self)
                      (FJson (JArr [JStr (session_id self); JSONRPCNotification d])) false]
                   σ tt) by reflexivity.
        rewrite Hrun. repeat split; try done.
        simpl. rewrite !N.eqb_refl. simpl. by rewrite Hbus.
      * rewrite (Hfun d f) in Hreset by left. discriminate.
    + exists t. rewrite (bind_returned _ _ σ [] σ tt) by reflexivity.
      rewrite Hrun. done.
Qed.

Lemma NoDup_reset_targets (items : list (string * value)) :
  NoDup items.*1 -> NoDup (reset_targets items).*1.
Proof.
  assert (Hsub : forall l d m, (d, m) ∈ reset_targets l -> d ∈ l.*1).
  { induction l as [|[d' v] l IH]; intros d m Hin.
    - by apply elem_of_nil in Hin.
    - unfold reset_targets in Hin. cbn in Hin.
      destruct (Py.endswith d' "reset"); [destruct v|]; cbn in Hin.
      + apply elem_of_cons in Hin as [[= -> ->] | Hin]; [by left|].
        right. by apply (IH d m).
      + right. by apply (IH d m).
      + right. by apply (IH d m). }
  induction items as [|[d v] items IH]; intros Hnd; [constructor|].
  cbn in Hnd. apply NoDup_cons in Hnd as [Hd Hnd].
  unfold reset_targets. cbn.
  destruct (Py.endswith d "reset"); [destruct v|]; cbn; try by apply IH.
  apply NoDup_cons. split; [|by apply IH].
  intros Hin. apply list_elem_of_fmap in Hin as ([d' m] & -> & Hin).
  apply Hd. by apply (Hsub _ _ m).
Qed.

Lemma elem_of_reset_targets (items : list (string * value)) d m :
  (d, m) ∈ reset_targets items <->
  (d, Str m) ∈ items /\ Py.endswith d "reset" = true.
Proof.
  unfold reset_targets. rewrite list_elem_of_omap. split.
  - intros ([d' v] & Hin & Hsome).
    destruct (Py.endswith d' "reset") eqn:Hreset; [|discriminate].
    destruct v; [|discriminate]. by injection Hsome as -> ->.
  - intros [Hin Hreset]. exists (d, Str m). by rewrite Hreset.
Qed.

(** C4: when [on_close] empties [clients], one reset notification goes
    on the bus for each destination ending with [reset], and only for
    those: it is addressed to the module the destination is bound to,
    carries the session id of the closed client, and two destinations
    of one module get one notification each; when other clients
    remain, nothing is sent. *)
Theorem on_close_reset_broadcast self σ :
  self ∈ clients σ ->
  (forall d f, destinations σ !! d = Some (Function f) -> Py.endswith d "reset" = false) ->
  let r := on_close self σ in
  (clients σ = {[self]} ->
     exists targets : list (string * string),
       bus_messages (zmq_router self) (trace r) =
         map (fun target =>
                [FString target.2;
                 FJson (JArr [JStr (session_id self); JSONRPCNotification target.1])])
             targets /\
       NoDup targets.*1 /\
       (forall d m, (d, m) ∈ targets <->
          destinations σ !! d = Some (Str m) /\ Py.endswith d "reset" = true) /\
       ws_writes (trace r) = [] /\
       clients (final r) = ∅ /\
       result r = inr tt) /\
  (clients σ <> {[self]} ->
     sends (trace r) = [] /\
     clients (final r) = clients σ ∖ {[self]} /\
     clients (final r) <> ∅ /\
     result r = inr tt).
Proof.
  intros Hin Hfun r. subst r.
  pose proof (for_reset_messages self (map_to_list (destinations σ))) as Hloop.
  revert Hloop. unfold on_close. cbv zeta.
  unfold mbind, M_bind, mret, M_ret, log, emit, raise, get_cls, put_cls.
  rewrite bool_decide_eq_true_2 by done. cbn [set_clients clients destinations].
  intros Hloop. split.
  - intros Hlast.
    rewrite bool_decide_eq_true_2 by (rewrite Hlast; apply difference_diag_L).
    destruct (Hloop (set_clients (clients σ ∖ {[self]}) σ)) as (t & Hrun & Hbus & Hws & Hcalls).
    { intros d f Hd. apply (Hfun d f). by apply elem_of_map_to_list. }
    rewrite Hrun. cbn [trace final result clients set_clients app].
    exists (reset_targets (map_to_list (destinations σ))).
    split; [exact Hbus|].
    split; [apply NoDup_reset_targets, NoDup_fst_map_to_list|].
    split.
    { intros d m. by rewrite elem_of_reset_targets, elem_of_map_to_list. }
    split; [exact Hws|].
    split; [rewrite Hlast; apply difference_diag_L | reflexivity].
  - intros Hmore.
    assert (Hne : clients σ ∖ {[self]} <> ∅).
    { intros He. apply Hmore. apply set_eq. intros x. split.
      - intros Hx. destruct (decide (x = self)) as [->|Hxs]; [set_solver|].
        assert (x ∈ clients σ ∖ {[self]}) as Hd by set_solver.
        rewrite He in Hd. set_solver.
      - intros Hx. set_solver. }
    rewrite bool_decide_eq_false_2 by done. done.
Qed.

(** *** More of [on_message] *)

(** Splits [on_message] into its paths, and closes each with [tac]. *)
Ltac on_message_paths self message σ tac :=
  unfold on_message, decode; run;
  destruct (json_decode message) as [request|]; simpl; [|tac];
  destruct (Py.getitem_str request "jsonrpc") as [?|jsonrpc_version]; simpl; [tac|];
  destruct (Py.getitem_str request "method") as [?|method]; simpl; [tac|];
  destruct (Py.get request "id") as [?|request_id]; simpl; [tac|];
  destruct (Py.eq_float jsonrpc_version version); simpl; [|tac];
  destruct (contains (destinations σ) method) as [?|[|]]; simpl;
    [tac | | destruct (Py.truthy request_id); simpl; tac];
  destruct (Py.startswith method "builtin") as [?|[|]]; simpl; [tac | |];
  destruct (lookup_key (destinations σ) method) as [?|[?|?]]; simpl; tac.

(** [on_message] never changes [clients] nor [destinations], whatever the
    frame and however it ends. *)
Theorem on_message_keeps_state self message σ :
  final (on_message self message σ) = σ.
Proof. on_message_paths self message σ ltac:(reflexivity). Qed.

(** One frame has at most one effect: a reply, a bus message or a
    built-in call, and never two of them. A reply goes to the client of
    the frame, every send goes on its router, and no part of a message is
    left pending. *)
Theorem on_message_one_effect self message σ :
  let t := trace (on_message self message σ) in
  (length (ws_writes t) + length (bus_messages (zmq_router self) t) + length (calls t) <= 1)%nat /\
  Forall (fun w => w.1 = self) (ws_writes t) /\
  Forall (fun s => s.1.1 = zmq_router self) (sends t) /\
  length (sends t) = (2 * length (bus_messages (zmq_router self) t))%nat.
Proof.
  cbv zeta.
  on_message_paths self message σ
    ltac:(unfold bus_messages; simpl; rewrite ?N.eqb_refl; simpl;
          repeat split; repeat constructor).
Qed.

(** A request whose method is an array or an object cannot be looked up:
    the membership test raises [TypeError], and the client gets no reply,
    not even when the request has an id. *)
Theorem on_message_unhashable_method self message σ request jsonrpc_version method :
  json_decode message = Some request ->
  field request "jsonrpc" = Some jsonrpc_version ->
  Py.eq_float jsonrpc_version version = true ->
  field request "method" = Some method ->
  (exists items, method = JArr items) \/ (exists fields, method = JObj fields) ->
  let r := on_message self message σ in
  result r = inl TypeError /\
  ws_writes (trace r) = [] /\
  sends (trace r) = [] /\
  calls (trace r) = [].
Proof.
  intros Hd Hv Hok Hm Hshape r. subst r.
  on_message_fields Hd Hv Hm. rewrite Hok. simpl.
  destruct Hshape as [[items ->] | [fields ->]]; done.
Qed.

(** A destination registered under a name of the other kind fails at
    dispatch: a function under a name that does not start with [builtin]
    is refused by [send_string], and a module name under a name that
    starts with [builtin] cannot be called. Both raise [TypeError], and
    nothing is sent, called or replied. *)
Theorem on_message_wrong_kind self message σ request jsonrpc_version method bound :
  json_decode message = Some request ->
  field request "jsonrpc" = Some jsonrpc_version ->
  Py.eq_float jsonrpc_version version = true ->
  field request "method" = Some (JStr method) ->
  destinations σ !! method = Some bound ->
  String.prefix "builtin" method =
    match bound with Str _ => true | Function _ => false end ->
  let r := on_message self message σ in
  result r = inl TypeError /\
  sends (trace r) = [] /\
  calls (trace r) = [] /\
  ws_writes (trace r) = [].
Proof.
  intros Hd Hv Hok Hm Hbound Hprefix r. subst r.
  on_message_fields Hd Hv Hm. rewrite Hok. simpl.
  rewrite bool_decide_eq_true_2 by eauto. simpl.
  rewrite Hprefix. unfold lookup_key. rewrite Hbound.
  destruct bound; done.
Qed.

Lemma register_destination_free destination module σ :
  destinations σ !! destination = None ->
  register_destination destination module σ =
    Outcome [Log DEBUG "registering {} as a destination for the {} module"]
      (set_destinations (<[destination := module]> (destinations σ)) σ) (inr tt).
Proof.
  intros Hfree. unfold register_destination. run. rewrite Hfree.
  by rewrite bool_decide_eq_false_2 by (intros [? ?]; discriminate).
Qed.

(** Registration and routing compose: once a free destination is
    registered for a module, a request for it, which was unknown before,
    is sent to that module. *)
Theorem register_then_route self destination module message σ request jsonrpc_version :
  destinations σ !! destination = None ->
  String.prefix "builtin" destination = false ->
  json_decode message = Some request ->
  field request "jsonrpc" = Some jsonrpc_version ->
  Py.eq_float jsonrpc_version version = true ->
  field request "method" = Some (JStr destination) ->
  let σ' := final (register_destination destination (Str module) σ) in
  bus_messages (zmq_router self) (trace (on_message self message σ)) = [] /\
  bus_messages (zmq_router self) (trace (on_message self message σ')) =
    [[FString module; FJson (JArr [JStr (session_id self); request])]] /\
  ws_writes (trace (on_message self message σ')) = [].
Proof.
  intros Hfree Hprefix Hd Hv Hok Hm σ'. subst σ'.
  rewrite (register_destination_free _ _ _ Hfree). cbn [final]. split.
  - on_message_fields Hd Hv Hm. rewrite Hok. simpl. rewrite Hfree.
    rewrite bool_decide_eq_false_2 by (intros [? ?]; discriminate). simpl.
    destruct (Py.truthy _); reflexivity.
  - on_message_fields Hd Hv Hm. rewrite Hok. simpl.
    rewrite lookup_insert_eq. rewrite bool_decide_eq_true_2 by eauto. simpl.
    rewrite Hprefix. simpl. unfold lookup_key. simpl. rewrite lookup_insert_eq. simpl.
    unfold bus_messages. simpl. rewrite N.eqb_refl. done.
Qed.

(** *** More of [open] and [on_close] *)

#[local] Set Warnings "-clear-no-such-hyp".

Lemma bind_raised {A B} (m : M A) (k : A -> M B) σ t σ' e :
  m σ = Outcome t σ' (inl e) -> (m ≫= k) σ = Outcome t σ' (inl e).
Proof. intros Hm. unfold mbind, M_bind. by rewrite Hm. Qed.

(** The body of the loop of [on_close]. *)
Local Abbreviation reset_loop self :=
  (fun '(destination, module) =>
     if Py.endswith destination "reset" then
       send_string (zmq_router self) module true ;;
       send_json (zmq_router self)
         (JArr [JStr (session_id self); JSONRPCNotification destination])
     else mret tt).

(** However the loop ends, it leaves the class attributes alone, writes
    to no client, sends on the router of [self] only, and can only fail
    with the [TypeError] of [send_string]. *)
Lemma for_reset_state self (items : list (string * value)) σ :
  let r := for_ items (reset_loop self) σ in
  final r = σ /\
  ws_writes (trace r) = [] /\
  calls (trace r) = [] /\
  Forall (fun s => s.1.1 = zmq_router self) (sends (trace r)) /\
  (result r = inr tt \/ result r = inl TypeError).
Proof.
  cbv zeta. induction items as [|[d v] items IH].
  - repeat split; [constructor | by left].
  - cbn [for_]. destruct (Py.endswith d "reset").
    + destruct v as [name | f].
      * rewrite (bind_returned _ _ σ
                   [Send (zmq_router self) (FString name) true;
                    Send (zmq_router self)
                      (FJson (JArr [JStr (session_id self); JSONRPCNotification d])) false]
                   σ tt) by reflexivity.
        destruct (for_ items _ σ) as [t σ' x]. cbn [trace final result] in *.
        destruct IH as (Hf & Hw & Hc & Hs & Hr).
        repeat split; [exact Hf | exact Hw | exact Hc | | exact Hr].
        cbn. repeat (constructor; [reflexivity|]). exact Hs.
      * rewrite (bind_raised _ _ σ [] σ TypeError) by reflexivity.
        repeat split; [constructor | by right].
    + rewrite (bind_returned _ _ σ [] σ tt) by reflexivity.
      destruct (for_ items _ σ) as [t σ' x]. exact IH.
Qed.

(** A destination that ends with [reset] and is bound to a function
    stops the loop with [TypeError]. *)
Lemma for_reset_function self (items : list (string * value)) σ d f :
  (d, Function f) ∈ items ->
  Py.endswith d "reset" = true ->
  result (for_ items (reset_loop self) σ) = inl TypeError.
Proof.
  intros Hin Hreset. induction items as [|[d' v] items IH].
  - by apply elem_of_nil in Hin.
  - cbn [for_]. destruct (Py.endswith d' "reset") eqn:Hd'.
    + destruct v as [name | f'].
      * rewrite (bind_returned _ _ σ
                   [Send (zmq_router self) (FString name) true;
                    Send (zmq_router self)
                      (FJson (JArr [JStr (session_id self); JSONRPCNotification d'])) false]
                   σ tt) by reflexivity.
        apply elem_of_cons in Hin as [Heq | Hin]; [discriminate Heq|].
        specialize (IH Hin). destruct (for_ items _ σ) as [t σ' x]. exact IH.
      * by rewrite (bind_raised _ _ σ [] σ TypeError) by reflexivity.
    + rewrite (bind_returned _ _ σ [] σ tt) by reflexivity.
      apply elem_of_cons in Hin as [Heq | Hin]; [injection Heq as -> _; congruence|].
      specialize (IH Hin). destruct (for_ items _ σ) as [t σ' x]. exact IH.
Qed.

(** [on_close] of a client of [clients], in terms of its loop. *)
Lemma on_close_unfold self σ :
  self ∈ clients σ ->
  on_close self σ =
    let σ' := set_clients (clients σ ∖ {[self]}) σ in
    if bool_decide (clients σ ∖ {[self]} = ∅) then
      match for_ (map_to_list (destinations σ)) (reset_loop self) σ' with
      | Outcome t σ'' x =>
          Outcome (Log INFO "Websocket client {} disconnected" :: t) σ'' x
      end
    else Outcome [Log INFO "Websocket client {} disconnected"] σ' (inr tt).
Proof.
  intros Hin. unfold on_close. cbv zeta.
  unfold mbind, M_bind, mret, M_ret, log, emit, raise, get_cls, put_cls.
  rewrite bool_decide_eq_true_2 by done. cbn [set_clients clients destinations].
  destruct (bool_decide (clients σ ∖ {[self]} = ∅)); [|reflexivity].
  unfold set_clients. destruct (for_ _ _ _) as [t σ' x]. reflexivity.
Qed.

(** Closing a client that is not in [clients] (one that was never
    opened, or is closed twice) raises [KeyError]: nothing is removed and
    no reset is sent, even when [clients] is empty. *)
Theorem on_close_unknown_client self σ :
  self ∉ clients σ ->
  let r := on_close self σ in
  result r = inl KeyError /\
  final r = σ /\
  sends (trace r) = [].
Proof.
  intros Hout r. subst r. unfold on_close. run.
  rewrite bool_decide_eq_false_2 by done. done.
Qed.

(** [on_close] removes exactly the closed client, and leaves
    [destinations] as it was, whether other clients remain or not and
    even when the reset broadcast fails; it writes to no client and
    sends on its own router only. *)
Theorem on_close_removes_self self σ :
  self ∈ clients σ ->
  let r := on_close self σ in
  (forall c, c ∈ clients (final r) <-> c ∈ clients σ /\ c <> self) /\
  destinations (final r) = destinations σ /\
  ws_writes (trace r) = [] /\
  Forall (fun s => s.1.1 = zmq_router self) (sends (trace r)).
Proof.
  intros Hin r. subst r. rewrite (on_close_unfold _ _ Hin). cbv zeta.
  pose proof (for_reset_state self (map_to_list (destinations σ))
                (set_clients (clients σ ∖ {[self]}) σ)) as Hloop.
  cbv zeta in Hloop.
  destruct (bool_decide _).
  - destruct (for_ _ _ _) as [t σ' x]. cbn [trace final result] in *.
    destruct Hloop as (-> & Hw & _ & Hs & _).
    repeat split; try done; set_solver.
  - cbn. repeat split; try done; try constructor; set_solver.
Qed.

(** Opening a client and closing it again restores the class attributes;
    when other clients were connected, the closing sends nothing. *)
Theorem open_then_on_close self σ :
  self ∉ clients σ ->
  let opened := final (open self σ) in
  let r := on_close self opened in
  self ∈ clients opened /\
  final r = σ /\
  (clients σ <> ∅ -> sends (trace r) = [] /\ result r = inr tt).
Proof.
  intros Hout opened r. subst r opened.
  assert (Hopen : final (open self σ) = set_clients ({[self]} ∪ clients σ) σ) by reflexivity.
  rewrite Hopen.
  assert (Hin : self ∈ clients (set_clients ({[self]} ∪ clients σ) σ)).
  { cbn. set_solver. }
  assert (Hback : ({[self]} ∪ clients σ) ∖ {[self]} = clients σ) by set_solver.
  split; [exact Hin|].
  rewrite (on_close_unfold _ _ Hin). cbv zeta. cbn [clients destinations set_clients].
  rewrite Hback.
  pose proof (for_reset_state self (map_to_list (destinations σ))
                {| clients := clients σ; destinations := destinations σ |}) as Hloop.
  cbv zeta in Hloop. split.
  - destruct (bool_decide _).
    + destruct (for_ _ _ _) as [t σ' x]. cbn [trace final result] in *.
      destruct Hloop as (-> & _). by destruct σ.
    + by destruct σ.
  - intros Hmore. rewrite bool_decide_eq_false_2 by done. done.
Qed.

(** When the last client closes and a destination ending with [reset] is
    bound to a function, the broadcast raises [TypeError]; the client
    has been removed all the same. *)
Theorem on_close_function_reset self σ d f :
  clients σ = {[self]} ->
  destinations σ !! d = Some (Function f) ->
  Py.endswith d "reset" = true ->
  let r := on_close self σ in
  result r = inl TypeError /\
  clients (final r) = ∅ /\
  ws_writes (trace r) = [].
Proof.
  intros Hlast Hbound Hreset r. subst r.
  assert (Hin : self ∈ clients σ) by (rewrite Hlast; set_solver).
  assert (Hempty : clients σ ∖ {[self]} = ∅) by (rewrite Hlast; set_solver).
  rewrite (on_close_unfold _ _ Hin). cbv zeta.
  rewrite bool_decide_eq_true_2 by done.
  pose proof (for_reset_state self (map_to_list (destinations σ))
                (set_clients (clients σ ∖ {[self]}) σ)) as Hloop.
  pose proof (for_reset_function self (map_to_list (destinations σ))
                (set_clients (clients σ ∖ {[self]}) σ) d f) as Hfail.
  cbv zeta in Hloop.
  destruct (for_ _ _ _) as [t σ' x]. cbn [trace final result] in *.
  destruct Hloop as (-> & Hw & _).
  split; [|split; [exact Hempty | exact Hw]].
  apply Hfail; [by apply elem_of_map_to_list | exact Hreset].
Qed.

(** *** More of [dispatch_message] *)

(** What [dispatch_message] does with a payload that decodes to an array
    of at least two items. *)
Lemma dispatch_message_array stream module_name payload rest module session response more σ :
  utf8_decode module_name = Some module ->
  json_decode payload = Some (JArr (session :: response :: more)) ->
  dispatch_message stream (module_name :: payload :: rest) σ =
    Outcome
      (Log DEBUG "Received message from module {}: {}" ::
       map (fun client => WriteMessage client response)
         (List.filter (fun client => Py.eq_str (session_id client) session)
            (elements (clients σ))))
      σ (inr tt).
Proof.
  intros Hu Hd.
  pose proof for_clients_writes as Hloop. revert Hloop.
  dispatch_message_parts Hu. rewrite Hd. simpl. intros Hloop.
  rewrite Hloop. reflexivity.
Qed.

Lemma elem_of_matching (l : list JSONRPCWebSocket) session c :
  c ∈ List.filter (fun client => Py.eq_str (session_id client) session) l <->
  c ∈ l /\ session = JStr (session_id c).
Proof.
  rewrite !list_elem_of_In, filter_In, eq_str_true. reflexivity.
Qed.

Lemma NoDup_List_filter {A} (p : A -> bool) (l : list A) :
  NoDup l -> NoDup (List.filter p l).
Proof.
  induction l as [|x l IH]; intros Hnd; [constructor|].
  apply NoDup_cons in Hnd as [Hx Hnd]. cbn.
  destruct (p x); [|by apply IH].
  apply NoDup_cons. split; [|by apply IH].
  intros Hin. apply Hx. apply list_elem_of_In in Hin.
  apply filter_In in Hin as [Hin _]. by apply list_elem_of_In.
Qed.

(** [dispatch_message] never changes [clients] nor [destinations],
    whatever the message and however it ends. *)
Theorem dispatch_message_keeps_state stream message σ :
  final (dispatch_message stream message σ) = σ.
Proof.
  pose proof for_clients_writes as Hloop. revert Hloop.
  unfold dispatch_message, decode, decode_utf8, part. run. intros Hloop.
  destruct (message !! 0%nat) as [module_name|]; simpl; [|reflexivity].
  destruct (utf8_decode module_name); simpl; [|reflexivity].
  destruct (message !! 1%nat) as [payload|]; simpl; [|reflexivity].
  destruct (json_decode payload) as [json_message|]; simpl; [|reflexivity].
  destruct (Py.getitem_nat json_message 0) as [?|session]; simpl; [reflexivity|].
  destruct (Py.getitem_nat json_message 1) as [?|response]; simpl; [reflexivity|].
  rewrite Hloop. reflexivity.
Qed.

(** Every client that has the session id of the reply gets the response,
    exactly once, and no other client gets anything: when several
    clients share the id, each of them is written to. *)
Theorem dispatch_message_every_holder stream module_name payload module session response σ :
  utf8_decode module_name = Some module ->
  json_decode payload = Some (JArr [session; response]) ->
  let w := ws_writes (trace (dispatch_message stream [module_name; payload] σ)) in
  NoDup w /\
  (forall c x, (c, x) ∈ w <->
     c ∈ clients σ /\ session = JStr (session_id c) /\ x = response).
Proof.
  intros Hu Hd w. subst w.
  rewrite (dispatch_message_array _ _ _ _ _ _ _ _ _ Hu Hd). cbn [trace].
  change (ws_writes (Log ?lvl ?text :: ?t)) with (ws_writes t).
  rewrite ws_writes_map. split.
  - apply NoDup_fmap_2; [by intros ? ? [= ->]|].
    apply NoDup_List_filter, NoDup_elements.
  - intros c x. rewrite list_elem_of_fmap. split.
    + intros (c' & [= -> ->] & Hin). apply elem_of_matching in Hin as [Hin Hs].
      apply elem_of_elements in Hin. done.
    + intros (Hin & Hs & ->). exists c. split; [reflexivity|].
      apply elem_of_matching. split; [by apply elem_of_elements | done].
Qed.

(** Only the first two items of the payload are read: an array with more
    items is dispatched like the array of its first two. *)
Theorem dispatch_message_ignores_more stream module_name payload payload' session response more σ :
  json_decode payload = Some (JArr (session :: response :: more)) ->
  json_decode payload' = Some (JArr [session; response]) ->
  dispatch_message stream [module_name; payload] σ =
  dispatch_message stream [module_name; payload'] σ.
Proof.
  intros Hd Hd'.
  destruct (utf8_decode module_name) as [module|] eqn:Hu.
  - rewrite (dispatch_message_array _ _ _ _ _ _ _ _ _ Hu Hd).
    rewrite (dispatch_message_array _ _ _ _ _ _ _ _ _ Hu Hd'). reflexivity.
  - unfold dispatch_message, decode_utf8, part. run. rewrite Hu. reflexivity.
Qed.


(** A message of fewer than two parts raises [IndexError], which the
    [except ValueError] of the decoding does not catch: nothing is sent
    back on the stream and nothing is logged. *)
Theorem dispatch_message_missing_part stream message σ :
  (length message < 2)%nat ->
  (forall module_name, message !! 0%nat = Some module_name ->
     utf8_decode module_name <> None) ->
  let r := dispatch_message stream message σ in
  result r = inl IndexError /\
  trace r = [].
Proof.
  intros Hlen Hname r. subst r.
  unfold dispatch_message, decode, decode_utf8, part. run.
  destruct message as [|module_name [|payload message]]; simpl in *; [done | | lia].
  destruct (utf8_decode module_name) eqn:Hu; simpl; [done|].
  by destruct (Hname module_name).
Qed.

(** A module name that is not UTF-8 raises [UnicodeDecodeError] before
    the payload is looked at: the error is a [ValueError], but it is
    raised outside the [try], so that nothing is sent or logged, and a
    well-formed reply is not delivered. *)
Theorem dispatch_message_bad_module_name stream module_name rest σ :
  utf8_decode module_name = None ->
  let r := dispatch_message stream (module_name :: rest) σ in
  result r = inl UnicodeDecodeError /\
  is_ValueError UnicodeDecodeError = true /\
  trace r = [].
Proof.
  intros Hu r. subst r.
  unfold dispatch_message, decode_utf8, part. run. rewrite Hu. done.
Qed.

(** A reply that arrives after its client has closed is dropped: once
    [on_close] has run, a message addressed to the session id of the
    closed client is written to nobody, when no other client has the
    same id. *)
Theorem reply_after_on_close self stream module_name payload module response σ :
  self ∈ clients σ ->
  (forall other, other ∈ clients σ -> session_id other = session_id self -> other = self) ->
  utf8_decode module_name = Some module ->
  json_decode payload = Some (JArr [JStr (session_id self); response]) ->
  let closed := final (on_close self σ) in
  ws_writes (trace (dispatch_message stream [module_name; payload] closed)) = [].
Proof.
  intros Hin Huniq Hu Hd closed. subst closed.
  rewrite (dispatch_message_array _ _ _ _ _ _ _ _ _ Hu Hd). cbn [trace].
  change (ws_writes (Log ?lvl ?text :: ?t)) with (ws_writes t).
  rewrite ws_writes_map, filter_none; [reflexivity|].
  intros c Hc. apply elem_of_elements in Hc.
  assert (Hstate : clients (final (on_close self σ)) = clients σ ∖ {[self]}).
  { rewrite (on_close_unfold _ _ Hin). cbv zeta.
    pose proof (for_reset_state self (map_to_list (destinations σ))
                  (set_clients (clients σ ∖ {[self]}) σ)) as Hloop.
    cbv zeta in Hloop. destruct (bool_decide _); [|reflexivity].
    destruct (for_ _ _ _) as [t σ' x]. cbn [trace final result] in *.
    by destruct Hloop as (-> & _). }
  rewrite Hstate in Hc. apply elem_of_difference in Hc as [Hc Hne].
  destruct (Py.eq_str (session_id c) _) eqn:Hs; [|reflexivity].
  apply eq_str_true in Hs. injection Hs as Hs.
  exfalso. apply Hne. apply elem_of_singleton. apply Huniq; [exact Hc | by symmetry].
Qed.

(** A reply to a client that has just been opened reaches it: after
    [open], a message addressed to its session id is written to it, and
    to it only, when no client had that id before. *)
Theorem reply_after_open self stream module_name payload module response σ :
  (forall other, other ∈ clients σ -> session_id other <> session_id self) ->
  utf8_decode module_name = Some module ->
  json_decode payload = Some (JArr [JStr (session_id self); response]) ->
  let opened := final (open self σ) in
  ws_writes (trace (dispatch_message stream [module_name; payload] σ)) = [] /\
  ws_writes (trace (dispatch_message stream [module_name; payload] opened)) =
    [(self, response)].
Proof.
  intros Hfresh Hu Hd opened. subst opened.
  rewrite !(dispatch_message_array _ _ _ _ _ _ _ _ _ Hu Hd). cbn [trace].
  change (ws_writes (Log ?lvl ?text :: ?t)) with (ws_writes t).
  rewrite !ws_writes_map. split.
  - rewrite filter_none; [reflexivity|].
    intros c Hc. apply elem_of_elements in Hc.
    destruct (Py.eq_str (session_id c) _) eqn:Hs; [|reflexivity].
    apply eq_str_true in Hs. injection Hs as Hs. by destruct (Hfresh c Hc).
  - assert (Hopen : clients (final (open self σ)) = {[self]} ∪ clients σ) by reflexivity.
    rewrite (filter_unique _ _ self); [reflexivity | apply NoDup_elements | | |].
    + apply elem_of_elements. rewrite Hopen. set_solver.
    + by apply eq_str_true.
    + intros c Hc Hs. apply elem_of_elements in Hc. rewrite Hopen in Hc.
      apply elem_of_union in Hc as [Hc | Hc]; [by apply elem_of_singleton in Hc|].
      apply eq_str_true in Hs. injection Hs as Hs. by destruct (Hfresh c Hc).
Qed.

(** *** More of the reset broadcast and of [register_destination] *)

(** [s.endswith(p)] holds exactly when [s] is some string followed by
    [p]. *)
Lemma endswith_suffix s p : Py.endswith s p = true <-> exists pre, s = pre ++ p.
Proof.
  induction s as [|a s IH]; cbn [Py.endswith].
  - destruct (String.eqb_spec EmptyString p) as [<- | Hne].
    + split; [by exists EmptyString | done].
    + split; [discriminate|]. intros [pre Hpre].
      destruct pre as [|b pre].
      * change (EmptyString = p) in Hpre. congruence.
      * change (EmptyString = String b (pre ++ p)) in Hpre. discriminate.
  - destruct (String.eqb_spec (String a s) p) as [<- | Hne].
    + split; [by exists EmptyString | done].
    + rewrite IH. split.
      * intros [pre ->]. by exists (String a pre).
      * intros [pre Hpre]. destruct pre as [|b pre].
        -- change (String a s = p) in Hpre. congruence.
        -- change (String a s = String b (pre ++ p)) in Hpre.
           injection Hpre as -> ->. by exists pre.
Qed.

(** When the last client closes, a destination bound to a module gets
    its reset notification exactly when its name is some string followed
    by [reset]: the name [reset] itself counts, a name that only
    contains [reset] elsewhere does not. *)
Theorem on_close_resets_by_suffix self σ d m :
  clients σ = {[self]} ->
  (forall d f, destinations σ !! d = Some (Function f) -> Py.endswith d "reset" = false) ->
  destinations σ !! d = Some (Str m) ->
  let r := on_close self σ in
  [FString m; FJson (JArr [JStr (session_id self); JSONRPCNotification d])]
    ∈ bus_messages (zmq_router self) (trace r) <->
  exists pre, d = pre ++ "reset".
Proof.
  intros Hlast Hfun Hbound r. subst r.
  assert (Hin : self ∈ clients σ) by (rewrite Hlast; set_solver).
  assert (Hempty : clients σ ∖ {[self]} = ∅) by (rewrite Hlast; set_solver).
  rewrite (on_close_unfold _ _ Hin). cbv zeta.
  rewrite bool_decide_eq_true_2 by done.
  destruct (for_reset_messages self (map_to_list (destinations σ))
              (set_clients (clients σ ∖ {[self]}) σ)) as (t & Hrun & Hbus & _).
  { intros d' f Hd'. apply (Hfun d' f). by apply elem_of_map_to_list. }
  rewrite Hrun. cbn [trace].
  change (bus_messages ?s (Log ?lvl ?text :: ?t')) with (multipart s [] (sends t')).
  rewrite Hbus, <- endswith_suffix, list_elem_of_fmap. split.
  - intros ([d' m'] & Heq & Ht). unfold reset_message in Heq. cbn in Heq.
    injection Heq as -> ->. by apply elem_of_reset_targets in Ht as [_ Ht].
  - intros Hreset. exists (d, m). split; [reflexivity|].
    apply elem_of_reset_targets. split; [by apply elem_of_map_to_list | done].
Qed.

(** Registrations of different destinations commute: in either order
    both succeed, and the class attributes end the same. *)
Theorem register_destination_commutes d1 m1 d2 m2 σ :
  d1 <> d2 ->
  destinations σ !! d1 = None ->
  destinations σ !! d2 = None ->
  let a := register_destination d2 m2 (final (register_destination d1 m1 σ)) in
  let b := register_destination d1 m1 (final (register_destination d2 m2 σ)) in
  result a = inr tt /\
  result b = inr tt /\
  final a = final b.
Proof.
  intros Hne H1 H2 a b. subst a b.
  rewrite (register_destination_free d1 m1 σ H1), (register_destination_free d2 m2 σ H2).
  cbn [final].
  rewrite !register_destination_free
    by (cbn [set_destinations destinations]; by rewrite lookup_insert_ne).
  cbn [result final]. split; [reflexivity|]. split; [reflexivity|].
  unfold set_destinations. cbn [destinations clients]. f_equal.
  by apply insert_insert_ne.
Qed.

Lemma on_close_clients self σ :
  self ∈ clients σ ->
  clients (final (on_close self σ)) = clients σ ∖ {[self]}.
Proof.
  intros Hin. rewrite (on_close_unfold _ _ Hin). cbv zeta.
  pose proof (for_reset_state self (map_to_list (destinations σ))
                (set_clients (clients σ ∖ {[self]}) σ)) as Hloop.
  cbv zeta in Hloop. destruct (bool_decide _); [|reflexivity].
  destruct (for_ _ _ _) as [t σ' x]. cbn [trace final result] in *.
  by destruct Hloop as (-> & _).
Qed.

Lemma on_close_key_error self σ :
  self ∉ clients σ ->
  on_close self σ =
    Outcome [Log INFO "Websocket client {} disconnected"] σ (inl KeyError).
Proof.
  intros Hout. unfold on_close. run. by rewrite bool_decide_eq_false_2 by done.
Qed.

(** Closing a client a second time raises [KeyError] and changes
    nothing more: the reset is not broadcast again, even when the first
    closing had emptied [clients]. *)
Theorem on_close_twice self σ :
  self ∈ clients σ ->
  let closed := final (on_close self σ) in
  let r := on_close self closed in
  result r = inl KeyError /\
  sends (trace r) = [] /\
  final r = closed.
Proof.
  intros Hin closed r. subst r closed.
  assert (Hout : self ∉ clients (final (on_close self σ))).
  { rewrite (on_close_clients _ _ Hin). set_solver. }
  rewrite (on_close_key_error _ _ Hout). done.
Qed.

End Properties.

(** ** The scenarios, run *)

Section Scenarios.

#[local] Existing Instance Scenario.runtime.

Import Scenario.

Ltac evaluate := vm_compute; reflexivity.

(** Last-client reset: with [mod.reset], [mod.other] and [n.reset]
    registered, the disconnection of the only client sends the two
    notifications. *)
Example last_client_reset :
  bus_messages router (trace (on_close client (state [client] reset_registry))) =
    [reset_message client ("mod.reset", "m1"); reset_message client ("n.reset", "m2")].
Proof. evaluate. Qed.

(** The frame of the happy path, as the scenario writes it, has the
    string ["2.0"] for version: the handler refuses it, and writes
    InvalidRequest. This is where C1 as stated fails. *)
Lemma string_version_is_refused :
  let r := on_message client create_text (state [client] registry) in
  json_decode create_text = Some create_doc /\
  field create_doc "jsonrpc" = Some (JStr "2.0") /\
  field create_doc "method" = Some (JStr "frsw.create") /\
  ws_writes (trace r) = [(client, JSONRPCInvalidRequest)] /\
  sends (trace r) = [].
Proof. cbv zeta. repeat split; evaluate. Qed.

(** A payload that decodes, but not to an array of two items: the empty
    array. [json_message[0]] raises [IndexError], which nothing
    catches, and nothing is logged. This is where C6 as stated fails. *)
Lemma empty_array_raises :
  let r := dispatch_message router ["dynamips"; "[]"] (state [client] registry) in
  json_decode "[]" = Some (JArr []) /\
  result r = inl IndexError /\
  logged (trace r) = [].
Proof. cbv zeta. repeat split; evaluate. Qed.

Lemma on_message_version_check_witness :
  (json_decode old_version_text = Some old_version_doc /\
   field old_version_doc "jsonrpc" = Some (JStr "1.0") /\
   field old_version_doc "method" = Some (JStr "frsw.create") /\
   Py.eq_float (JStr "1.0") version = false /\
   ws_writes (trace (on_message client old_version_text (state [client] registry))) =
     [(client, JSONRPCInvalidRequest)]) /\
  (json_decode create_float_text = Some create_float_doc /\
   field create_float_doc "jsonrpc" = Some two /\
   field create_float_doc "method" = Some (JStr "frsw.create") /\
   Py.eq_float two version = true /\
   Forall (fun w => w.2 <> JSONRPCInvalidRequest)
     (ws_writes (trace (on_message client create_float_text (state [client] registry))))).
Proof.
  split.
  - repeat (split; [reflexivity|]).
    apply (on_message_version_check client old_version_text (state [client] registry)
             old_version_doc (JStr "1.0") (JStr "frsw.create")); reflexivity.
  - repeat (split; [reflexivity|]).
    apply (on_message_version_check client create_float_text (state [client] registry)
             create_float_doc two (JStr "frsw.create")); reflexivity.
Defined.

Lemma on_message_routes_to_module_witness :
  json_decode create_float_text = Some create_float_doc /\
  field create_float_doc "jsonrpc" = Some two /\
  Py.eq_float two version = true /\
  field create_float_doc "method" = Some (JStr "frsw.create") /\
  registry !! "frsw.create" = Some (Str "dynamips") /\
  String.prefix "builtin" "frsw.create" = false /\
  bus_messages router
    (trace (on_message client create_float_text (state [client] registry))) =
    [[FString "dynamips"; FJson (JArr [JStr S; create_float_doc])]].
Proof.
  repeat (split; [reflexivity|]).
  apply (on_message_routes_to_module client create_float_text (state [client] registry)
           create_float_doc two "frsw.create" "dynamips"); reflexivity.
Defined.

Lemma on_message_method_not_found_witness :
  (json_decode nope_text = Some nope_doc /\
   field nope_doc "jsonrpc" = Some two /\
   Py.eq_float two version = true /\
   field nope_doc "method" = Some (JStr "nope") /\
   contains registry (JStr "nope") = inr false /\
   Py.truthy (JInt 3) = true /\
   ws_writes (trace (on_message client nope_text (state [client] registry))) =
     [(client, JSONRPCMethodNotFound (JInt 3))]) /\
  (json_decode nope_notification_text = Some nope_notification_doc /\
   field nope_notification_doc "jsonrpc" = Some two /\
   field nope_notification_doc "method" = Some (JStr "nope") /\
   field nope_notification_doc "id" = None /\
   ws_writes (trace (on_message client nope_notification_text (state [client] registry))) = []).
Proof.
  split.
  - repeat (split; [reflexivity|]).
    apply (on_message_method_not_found client nope_text (state [client] registry)
             nope_doc two (JStr "nope")); reflexivity.
  - repeat (split; [reflexivity|]).
    apply (on_message_method_not_found client nope_notification_text
             (state [client] registry) nope_notification_doc two (JStr "nope"));
      try reflexivity.
    left. reflexivity.
Defined.

Lemma on_message_parse_error_witness :
  json_decode "not json" = None /\
  ws_writes (trace (on_message client "not json" (state [client] registry))) =
    [(client, JSONRPCParseError)].
Proof.
  split; [reflexivity|].
  apply (on_message_parse_error client "not json" (state [client] registry)).
  left. reflexivity.
Defined.

Lemma on_message_builtin_witness :
  json_decode builtin_text = Some builtin_doc /\
  field builtin_doc "jsonrpc" = Some two /\
  Py.eq_float two version = true /\
  field builtin_doc "method" = Some (JStr "builtin") /\
  registry !! "builtin" = Some (Function version_function) /\
  String.prefix "builtin" "builtin" = true /\
  calls (trace (on_message client builtin_text (state [client] registry))) =
    [version_function].
Proof.
  repeat (split; [reflexivity|]).
  apply (on_message_builtin client builtin_text (state [client] registry)
           builtin_doc two "builtin" version_function); reflexivity.
Defined.

Lemma dispatch_message_delivers_witness :
  utf8_decode "dynamips" = Some "dynamips" /\
  json_decode reply_text = Some (JArr [JStr S; response_doc]) /\
  (client ∈ clients (state [client; other_client] registry) /\
   JStr S = JStr (session_id client) /\
   ws_writes (trace (dispatch_message router ["dynamips"; reply_text]
                       (state [client; other_client] registry))) =
     [(client, response_doc)]) /\
  ws_writes (trace (dispatch_message router ["dynamips"; reply_text]
                      (state [other_client] registry))) = [].
Proof.
  assert (Hu : utf8_decode "dynamips" = Some "dynamips") by reflexivity.
  assert (Hd : json_decode reply_text = Some (JArr [JStr S; response_doc])) by reflexivity.
  split; [exact Hu|]. split; [exact Hd|]. split.
  - assert (Hin : client ∈ clients (state [client; other_client] registry)).
    { apply elem_of_list_to_set. left. }
    split; [exact Hin|]. split; [reflexivity|].
    apply (dispatch_message_delivers router "dynamips" reply_text "dynamips"
             (JStr S) response_doc (state [client; other_client] registry)
             Hu Hd); [exact Hin | reflexivity |].
    intros other Ho Hs. apply elem_of_list_to_set in Ho.
    apply elem_of_cons in Ho as [-> | Ho]; [reflexivity|].
    apply elem_of_cons in Ho as [-> | Ho]; [discriminate|].
    apply elem_of_nil in Ho. destruct Ho.
  - apply (dispatch_message_delivers router "dynamips" reply_text "dynamips"
             (JStr S) response_doc (state [other_client] registry) Hu Hd).
    intros c Hc. apply elem_of_list_to_set in Hc.
    apply elem_of_cons in Hc as [-> | Hc]; [discriminate|].
    apply elem_of_nil in Hc. destruct Hc.
Defined.

Lemma dispatch_message_undecodable_witness :
  utf8_decode "dynamips" = Some "dynamips" /\
  json_decode "not json" = None /\
  logged (trace (dispatch_message router ["dynamips"; "not json"]
                   (state [client] registry))) = [CRITICAL] /\
  result (dispatch_message router ["dynamips"; "not json"]
            (state [client] registry)) = inr tt.
Proof.
  assert (Hu : utf8_decode "dynamips" = Some "dynamips") by reflexivity.
  assert (Hd : json_decode "not json" = None) by reflexivity.
  split; [exact Hu|]. split; [exact Hd|].
  pose proof (dispatch_message_undecodable router "dynamips" "not json" [] "dynamips"
                (state [client] registry) Hu Hd) as (Hlog & _ & Hres & _).
  split; [exact Hlog | exact Hres].
Defined.

Lemma dispatch_message_cannot_decode_witness :
  utf8_decode "dynamips" = Some "dynamips" /\
  json_decode "not json" = None /\
  sends (trace (dispatch_message router ["dynamips"; "not json"]
                  (state [client] registry))) =
    [(router, FString "Cannot decode message!", false)].
Proof.
  assert (Hu : utf8_decode "dynamips" = Some "dynamips") by reflexivity.
  assert (Hd : json_decode "not json" = None) by reflexivity.
  split; [exact Hu|]. split; [exact Hd|].
  apply (dispatch_message_cannot_decode router "dynamips" "not json" [] "dynamips"
           (state [client] registry) Hu Hd).
Defined.

Lemma register_destination_binds_witness :
  (registry !! "frsw.delete" = None /\
   lookup_key
     (destinations
        (final (register_destination "frsw.delete" (Str "dynamips")
                  (state [client] registry))))
     (JStr "frsw.delete") = inr (Str "dynamips")) /\
  (registry !! "frsw.create" = Some (Str "dynamips") /\
   result (register_destination "frsw.create" (Str "qemu") (state [client] registry)) =
     inl AssertionError /\
   final (register_destination "frsw.create" (Str "qemu") (state [client] registry)) =
     state [client] registry).
Proof.
  split.
  - assert (Hfree : registry !! "frsw.delete" = None) by evaluate.
    split; [exact Hfree|].
    pose proof (proj1 (register_destination_binds "frsw.delete" (Str "dynamips") (Str "qemu")
                         (state [client] registry)) Hfree) as (_ & Hlookup & _).
    exact Hlookup.
  - assert (Hb : registry !! "frsw.create" = Some (Str "dynamips")) by evaluate.
    split; [exact Hb|].
    pose proof (proj2 (register_destination_binds "frsw.create" (Str "qemu") (Str "qemu")
                         (state [client] registry)) (Str "dynamips") Hb)
      as (Hres & Hfinal & _).
    split; [exact Hres | exact Hfinal].
Defined.

Lemma reset_registry_has_no_function d f :
  reset_registry !! d = Some (Function f) -> Py.endswith d "reset" = false.
Proof.
  intros Hd. unfold reset_registry in Hd.
  repeat (apply lookup_insert_Some in Hd as [[_ Hd] | [_ Hd]]; [discriminate|]).
  by rewrite lookup_empty in Hd.
Qed.

Lemma on_close_reset_broadcast_witness :
  client ∈ clients (state [client] reset_registry) /\
  clients (state [client] reset_registry) = {[client]} /\
  (exists targets : list (string * string),
     bus_messages router (trace (on_close client (state [client] reset_registry))) =
       map (fun target =>
              [FString target.2;
               FJson (JArr [JStr (session_id client); JSONRPCNotification target.1])])
           targets /\
     NoDup targets.*1 /\
     (forall d m, (d, m) ∈ targets <->
        reset_registry !! d = Some (Str m) /\ Py.endswith d "reset" = true)) /\
  clients (state [client; other_client] reset_registry) <> {[client]} /\
  sends (trace (on_close client (state [client; other_client] reset_registry))) = [].
Proof.
  assert (Hin : client ∈ clients (state [client] reset_registry)).
  { apply elem_of_list_to_set. left. }
  assert (Hone : clients (state [client] reset_registry) = {[client]}).
  { apply (right_id_L ∅ (∪)). }
  assert (Hin2 : client ∈ clients (state [client; other_client] reset_registry)).
  { apply elem_of_list_to_set. left. }
  assert (Htwo : clients (state [client; other_client] reset_registry) <> {[client]}).
  { intros He. assert (Ho : other_client ∈ ({[client]} : gset JSONRPCWebSocket)).
    { rewrite <- He. apply elem_of_list_to_set. right. left. }
    apply elem_of_singleton in Ho. discriminate. }
  split; [exact Hin|]. split; [exact Hone|]. split.
  - destruct (proj1 (on_close_reset_broadcast client (state [client] reset_registry)
                       Hin reset_registry_has_no_function) Hone)
      as (targets & Hbus & Hnd & Hiff & _).
    exists targets. split; [exact Hbus|]. split; [exact Hnd | exact Hiff].
  - split; [exact Htwo|].
    apply (proj2 (on_close_reset_broadcast client (state [client; other_client] reset_registry)
                    Hin2 reset_registry_has_no_function) Htwo).
Defined.

End Scenarios.

(** ** The edge cases, run *)

Section EdgeScenarios.

#[local] Existing Instance Edge.runtime.

Import Scenario Edge.

Ltac evaluate := vm_compute; reflexivity.

Ltac member := apply elem_of_list_to_set; repeat (first [left | right]).

Ltac not_member H :=
  apply elem_of_list_to_set in H;
  repeat (apply elem_of_cons in H as [H | H]; [discriminate H|]);
  apply elem_of_nil in H; destruct H.

Lemma on_message_unhashable_method_witness :
  json_decode list_method_text = Some list_method_doc /\
  field list_method_doc "jsonrpc" = Some two /\
  Py.eq_float two version = true /\
  field list_method_doc "method" = Some (JArr []) /\
  result (on_message client list_method_text (state [client] registry)) = inl TypeError /\
  ws_writes (trace (on_message client list_method_text (state [client] registry))) = [].
Proof.
  assert (Hd : json_decode list_method_text = Some list_method_doc) by reflexivity.
  assert (Hv : field list_method_doc "jsonrpc" = Some two) by reflexivity.
  assert (Hok : Py.eq_float two version = true) by reflexivity.
  assert (Hm : field list_method_doc "method" = Some (JArr [])) by reflexivity.
  assert (Hshape : (exists items, JArr [] = JArr items) \/ (exists fields, JArr [] = JObj fields)).
  { left. by exists []. }
  split; [exact Hd|]. split; [exact Hv|]. split; [exact Hok|]. split; [exact Hm|].
  destruct (on_message_unhashable_method client list_method_text (state [client] registry)
              list_method_doc two (JArr []) Hd Hv Hok Hm Hshape) as (Hres & Hws & _).
  split; [exact Hres | exact Hws].
Defined.

Lemma on_message_wrong_kind_witness :
  (json_decode create_float_text = Some create_float_doc /\
   swapped_registry !! "frsw.create" = Some (Function version_function) /\
   String.prefix "builtin" "frsw.create" = false /\
   result (on_message client create_float_text (state [client] swapped_registry)) =
     inl TypeError) /\
  (json_decode builtin_text = Some builtin_doc /\
   swapped_registry !! "builtin" = Some (Str "dynamips") /\
   String.prefix "builtin" "builtin" = true /\
   result (on_message client builtin_text (state [client] swapped_registry)) =
     inl TypeError).
Proof.
  assert (Hok : Py.eq_float two version = true) by reflexivity.
  split.
  - assert (Hd : json_decode create_float_text = Some create_float_doc) by reflexivity.
    assert (Hv : field create_float_doc "jsonrpc" = Some two) by reflexivity.
    assert (Hm : field create_float_doc "method" = Some (JStr "frsw.create")) by reflexivity.
    assert (Hb : swapped_registry !! "frsw.create" = Some (Function version_function))
      by evaluate.
    assert (Hp : String.prefix "builtin" "frsw.create" = false) by reflexivity.
    split; [exact Hd|]. split; [exact Hb|]. split; [exact Hp|].
    exact (proj1 (on_message_wrong_kind client create_float_text
                    (state [client] swapped_registry) create_float_doc two "frsw.create"
                    (Function version_function) Hd Hv Hok Hm Hb Hp)).
  - assert (Hd : json_decode builtin_text = Some builtin_doc) by reflexivity.
    assert (Hv : field builtin_doc "jsonrpc" = Some two) by reflexivity.
    assert (Hm : field builtin_doc "method" = Some (JStr "builtin")) by reflexivity.
    assert (Hb : swapped_registry !! "builtin" = Some (Str "dynamips")) by evaluate.
    assert (Hp : String.prefix "builtin" "builtin" = true) by reflexivity.
    split; [exact Hd|]. split; [exact Hb|]. split; [exact Hp|].
    exact (proj1 (on_message_wrong_kind client builtin_text
                    (state [client] swapped_registry) builtin_doc two "builtin"
                    (Str "dynamips") Hd Hv Hok Hm Hb Hp)).
Defined.

Lemma register_then_route_witness :
  (∅ : gmap string value) !! "frsw.create" = None /\
  String.prefix "builtin" "frsw.create" = false /\
  json_decode create_float_text = Some create_float_doc /\
  field create_float_doc "jsonrpc" = Some two /\
  Py.eq_float two version = true /\
  field create_float_doc "method" = Some (JStr "frsw.create") /\
  bus_messages router
    (trace (on_message client create_float_text
              (final (register_destination "frsw.create" (Str "dynamips")
                        (state [client] ∅))))) =
    [[FString "dynamips"; FJson (JArr [JStr S; create_float_doc])]].
Proof.
  assert (Hfree : destinations (state [client] ∅) !! "frsw.create" = None) by reflexivity.
  assert (Hp : String.prefix "builtin" "frsw.create" = false) by reflexivity.
  assert (Hd : json_decode create_float_text = Some create_float_doc) by reflexivity.
  assert (Hv : field create_float_doc "jsonrpc" = Some two) by reflexivity.
  assert (Hok : Py.eq_float two version = true) by reflexivity.
  assert (Hm : field create_float_doc "method" = Some (JStr "frsw.create")) by reflexivity.
  split; [exact Hfree|]. split; [exact Hp|]. split; [exact Hd|]. split; [exact Hv|].
  split; [exact Hok|]. split; [exact Hm|].
  exact (proj1 (proj2 (register_then_route client "frsw.create" "dynamips" create_float_text
                         (state [client] ∅) create_float_doc two Hfree Hp Hd Hv Hok Hm))).
Defined.

Lemma on_close_unknown_client_witness :
  (other_client ∉ clients (state [client] registry)) /\
  result (on_close other_client (state [client] registry)) = inl KeyError /\
  final (on_close other_client (state [client] registry)) = state [client] registry.
Proof.
  assert (Hout : other_client ∉ clients (state [client] registry)).
  { intros Hin. not_member Hin. }
  split; [exact Hout|].
  destruct (on_close_unknown_client other_client (state [client] registry) Hout)
    as (Hres & Hfinal & _).
  split; [exact Hres | exact Hfinal].
Defined.

Lemma on_close_removes_self_witness :
  client ∈ clients (state [client; other_client] reset_registry) /\
  (forall c, c ∈ clients (final (on_close client (state [client; other_client] reset_registry)))
     <-> c ∈ clients (state [client; other_client] reset_registry) /\ c <> client).
Proof.
  assert (Hin : client ∈ clients (state [client; other_client] reset_registry)) by member.
  split; [exact Hin|].
  apply (on_close_removes_self client (state [client; other_client] reset_registry) Hin).
Defined.

Lemma open_then_on_close_witness :
  (other_client ∉ clients (state [client] reset_registry)) /\
  clients (state [client] reset_registry) <> ∅ /\
  final (on_close other_client (final (open other_client (state [client] reset_registry)))) =
    state [client] reset_registry /\
  sends (trace (on_close other_client
                  (final (open other_client (state [client] reset_registry))))) = [].
Proof.
  assert (Hout : other_client ∉ clients (state [client] reset_registry)).
  { intros Hin. not_member Hin. }
  assert (Hmore : clients (state [client] reset_registry) <> ∅).
  { intros He. assert (Hc : client ∈ (∅ : gset JSONRPCWebSocket)) by (rewrite <- He; member).
    by apply not_elem_of_empty in Hc. }
  split; [exact Hout|]. split; [exact Hmore|].
  destruct (open_then_on_close other_client (state [client] reset_registry) Hout)
    as (_ & Hfinal & Hquiet).
  split; [exact Hfinal | exact (proj1 (Hquiet Hmore))].
Defined.

Lemma on_close_function_reset_witness :
  clients (state [client] function_reset_registry) = {[client]} /\
  function_reset_registry !! "mod.reset" = Some (Function version_function) /\
  Py.endswith "mod.reset" "reset" = true /\
  result (on_close client (state [client] function_reset_registry)) = inl TypeError /\
  clients (final (on_close client (state [client] function_reset_registry))) = ∅.
Proof.
  assert (Hone : clients (state [client] function_reset_registry) = {[client]}).
  { apply (right_id_L ∅ (∪)). }
  assert (Hb : function_reset_registry !! "mod.reset" = Some (Function version_function))
    by evaluate.
  split; [exact Hone|]. split; [exact Hb|]. split; [reflexivity|].
  assert (Hreset : Py.endswith "mod.reset" "reset" = true) by reflexivity.
  destruct (on_close_function_reset client (state [client] function_reset_registry)
              "mod.reset" version_function Hone Hb Hreset) as (Hres & Hfinal & _).
  split; [exact Hres | exact Hfinal].
Defined.

Lemma dispatch_message_every_holder_witness :
  utf8_decode "dynamips" = Some "dynamips" /\
  json_decode reply_text = Some (JArr [JStr S; response_doc]) /\
  (client, response_doc) ∈
    ws_writes (trace (dispatch_message router ["dynamips"; reply_text]
                        (state [client; other_client; twin_client] registry))) /\
  (twin_client, response_doc) ∈
    ws_writes (trace (dispatch_message router ["dynamips"; reply_text]
                        (state [client; other_client; twin_client] registry))) /\
  (other_client, response_doc) ∉
    ws_writes (trace (dispatch_message router ["dynamips"; reply_text]
                        (state [client; other_client; twin_client] registry))).
Proof.
  assert (Hu : utf8_decode "dynamips" = Some "dynamips") by reflexivity.
  assert (Hd : json_decode reply_text = Some (JArr [JStr S; response_doc])) by reflexivity.
  destruct (dispatch_message_every_holder router "dynamips" reply_text "dynamips" (JStr S)
              response_doc (state [client; other_client; twin_client] registry) Hu Hd)
    as [_ Hiff].
  split; [exact Hu|]. split; [exact Hd|]. split; [|split].
  - apply Hiff. split; [member | done].
  - apply Hiff. split; [member | done].
  - intros Hin. apply Hiff in Hin as (_ & Hs & _). discriminate Hs.
Defined.

Lemma dispatch_message_ignores_more_witness :
  json_decode long_reply_text = Some (JArr [JStr S; response_doc; JInt 1]) /\
  json_decode reply_text = Some (JArr [JStr S; response_doc]) /\
  dispatch_message router ["dynamips"; long_reply_text] (state [client] registry) =
  dispatch_message router ["dynamips"; reply_text] (state [client] registry).
Proof.
  assert (Hd : json_decode long_reply_text = Some (JArr [JStr S; response_doc; JInt 1]))
    by reflexivity.
  assert (Hd' : json_decode reply_text = Some (JArr [JStr S; response_doc])) by reflexivity.
  split; [exact Hd|]. split; [exact Hd'|].
  exact (dispatch_message_ignores_more router "dynamips" long_reply_text reply_text (JStr S)
           response_doc [JInt 1] (state [client] registry) Hd Hd').
Defined.


Lemma dispatch_message_missing_part_witness :
  (length ["dynamips"] < 2)%nat /\
  utf8_decode "dynamips" <> None /\
  result (dispatch_message router ["dynamips"] (state [client] registry)) = inl IndexError /\
  trace (dispatch_message router ["dynamips"] (state [client] registry)) = [].
Proof.
  assert (Hlen : (length ["dynamips"] < 2)%nat) by (cbn; lia).
  assert (Hu : utf8_decode "dynamips" <> None) by discriminate.
  assert (Hname : forall module_name, ["dynamips"] !! 0%nat = Some module_name ->
                    utf8_decode module_name <> None).
  { intros module_name [= <-]. exact Hu. }
  split; [exact Hlen|]. split; [exact Hu|].
  exact (dispatch_message_missing_part router ["dynamips"] (state [client] registry)
           Hlen Hname).
Defined.

Lemma dispatch_message_bad_module_name_witness :
  utf8_decode not_utf8 = None /\
  json_decode reply_text = Some reply_doc /\
  result (dispatch_message router [not_utf8; reply_text] (state [client] registry)) =
    inl UnicodeDecodeError /\
  trace (dispatch_message router [not_utf8; reply_text] (state [client] registry)) = [].
Proof.
  assert (Hu : utf8_decode not_utf8 = None) by reflexivity.
  split; [exact Hu|]. split; [reflexivity|].
  destruct (dispatch_message_bad_module_name router not_utf8 [reply_text]
              (state [client] registry) Hu) as (Hres & _ & Htrace).
  split; [exact Hres | exact Htrace].
Defined.

Lemma unique_session_ids other :
  other ∈ clients (state [client; other_client] registry) ->
  session_id other = session_id client -> other = client.
Proof.
  intros Ho Hs. apply elem_of_list_to_set in Ho.
  apply elem_of_cons in Ho as [-> | Ho]; [reflexivity|].
  apply elem_of_cons in Ho as [-> | Ho]; [discriminate|].
  apply elem_of_nil in Ho. destruct Ho.
Qed.

Lemma reply_after_on_close_witness :
  client ∈ clients (state [client; other_client] registry) /\
  utf8_decode "dynamips" = Some "dynamips" /\
  json_decode reply_text = Some (JArr [JStr (session_id client); response_doc]) /\
  ws_writes (trace (dispatch_message router ["dynamips"; reply_text]
                      (final (on_close client (state [client; other_client] registry))))) = [].
Proof.
  assert (Hin : client ∈ clients (state [client; other_client] registry)) by member.
  assert (Hu : utf8_decode "dynamips" = Some "dynamips") by reflexivity.
  assert (Hd : json_decode reply_text = Some (JArr [JStr (session_id client); response_doc]))
    by reflexivity.
  split; [exact Hin|]. split; [exact Hu|]. split; [exact Hd|].
  exact (reply_after_on_close client router "dynamips" reply_text "dynamips" response_doc
           (state [client; other_client] registry) Hin unique_session_ids Hu Hd).
Defined.

Lemma fresh_session_id other :
  other ∈ clients (state [other_client] registry) ->
  session_id other <> session_id client.
Proof.
  intros Ho. apply elem_of_list_to_set in Ho.
  apply elem_of_cons in Ho as [-> | Ho]; [discriminate|].
  apply elem_of_nil in Ho. destruct Ho.
Qed.

Lemma reply_after_open_witness :
  utf8_decode "dynamips" = Some "dynamips" /\
  json_decode reply_text = Some (JArr [JStr (session_id client); response_doc]) /\
  ws_writes (trace (dispatch_message router ["dynamips"; reply_text]
                      (final (open client (state [other_client] registry))))) =
    [(client, response_doc)].
Proof.
  assert (Hu : utf8_decode "dynamips" = Some "dynamips") by reflexivity.
  assert (Hd : json_decode reply_text = Some (JArr [JStr (session_id client); response_doc]))
    by reflexivity.
  split; [exact Hu|]. split; [exact Hd|].
  exact (proj2 (reply_after_open client router "dynamips" reply_text "dynamips" response_doc
                  (state [other_client] registry) fresh_session_id Hu Hd)).
Defined.

Lemma reset_registry_functions d f :
  destinations (state [client] reset_registry) !! d = Some (Function f) ->
  Py.endswith d "reset" = false.
Proof.
  intros Hd. cbn in Hd. unfold reset_registry in Hd.
  repeat (apply lookup_insert_Some in Hd as [[_ Hd] | [_ Hd]]; [discriminate|]).
  by rewrite lookup_empty in Hd.
Qed.

Lemma on_close_resets_by_suffix_witness :
  clients (state [client] reset_registry) = {[client]} /\
  reset_registry !! "mod.reset" = Some (Str "m1") /\
  "mod.reset" = "mod." ++ "reset" /\
  [FString "m1"; FJson (JArr [JStr (session_id client); JSONRPCNotification "mod.reset"])]
    ∈ bus_messages router (trace (on_close client (state [client] reset_registry))).
Proof.
  assert (Hone : clients (state [client] reset_registry) = {[client]}).
  { apply (right_id_L ∅ (∪)). }
  assert (Hb : destinations (state [client] reset_registry) !! "mod.reset" = Some (Str "m1"))
    by evaluate.
  split; [exact Hone|]. split; [exact Hb|]. split; [reflexivity|].
  apply (on_close_resets_by_suffix client (state [client] reset_registry) "mod.reset" "m1"
           Hone reset_registry_functions Hb).
  by exists "mod.".
Defined.

Lemma register_destination_commutes_witness :
  "frsw.delete" <> "frsw.update" /\
  registry !! "frsw.delete" = None /\
  registry !! "frsw.update" = None /\
  final (register_destination "frsw.update" (Str "dynamips")
           (final (register_destination "frsw.delete" (Str "dynamips")
                     (state [client] registry)))) =
  final (register_destination "frsw.delete" (Str "dynamips")
           (final (register_destination "frsw.update" (Str "dynamips")
                     (state [client] registry)))).
Proof.
  assert (Hne : "frsw.delete" <> "frsw.update") by discriminate.
  assert (H1 : destinations (state [client] registry) !! "frsw.delete" = None) by evaluate.
  assert (H2 : destinations (state [client] registry) !! "frsw.update" = None) by evaluate.
  split; [exact Hne|]. split; [exact H1|]. split; [exact H2|].
  exact (proj2 (proj2 (register_destination_commutes "frsw.delete" (Str "dynamips")
                         "frsw.update" (Str "dynamips") (state [client] registry)
                         Hne H1 H2))).
Defined.

Lemma on_close_twice_witness :
  client ∈ clients (state [client] reset_registry) /\
  result (on_close client (final (on_close client (state [client] reset_registry)))) =
    inl KeyError /\
  sends (trace (on_close client (final (on_close client (state [client] reset_registry))))) =
    [].
Proof.
  assert (Hin : client ∈ clients (state [client] reset_registry)) by member.
  split; [exact Hin|].
  destruct (on_close_twice client (state [client] reset_registry) Hin) as (Hres & Hs & _).
  split; [exact Hres | exact Hs].
Defined.

End EdgeScenarios.
